(** * Frustum geometry of Babylon.js: [Maths/math.frustum.ts]

    A shallow embedding of the plane-extraction functions and of the
    point-containment test, and the properties the specification states about
    them.

    The TypeScript code works on mutable objects: a [Plane] is written in
    place, an array of planes holds references.  The embedding therefore
    threads an explicit object store through every function and keeps the
    exception a missing array element raises.  The arithmetic is kept abstract
    in the type of JavaScript numbers, with two instances: IEEE binary64 (what
    the code runs on, executable) and the real numbers (the exact arithmetic
    in which the specification states its numerical properties). *)

From Stdlib Require PrimFloat Floats.
From Stdlib Require Import Reals Lra.
From stdpp Require Import gmap list.

(** ** Numbers *)

(** The operations of the JavaScript [number] type that the module uses. *)
Class Number (T : Type) := {
  num0 : T;                     (* the literal 0.0 *)
  num1 : T;                     (* the literal 1.0 *)
  nadd : T → T → T;             (* a + b *)
  nsub : T → T → T;             (* a - b *)
  nmul : T → T → T;             (* a * b *)
  ndiv : T → T → T;             (* a / b *)
  nsqrt : T → T;                (* Math.sqrt(a) *)
  nltb : T → T → bool;          (* a < b *)
  neqb : T → T → bool;          (* a === b *)
  nfinite : T → bool;           (* Number.isFinite(a) *)
}.

Declare Scope num_scope.
Delimit Scope num_scope with num.
Infix "+" := nadd : num_scope.
Infix "-" := nsub : num_scope.
Infix "*" := nmul : num_scope.
Infix "/" := ndiv : num_scope.
Infix "<?" := nltb : num_scope.
Infix "=?" := neqb : num_scope.

(** IEEE 754 binary64, the arithmetic of the running code. *)
Module Float64.
Import PrimFloat.

#[global] Instance float_Number : Number float := {|
  num0 := 0%float;
  num1 := 1%float;
  nadd := add;
  nsub := sub;
  nmul := mul;
  ndiv := div;
  nsqrt := sqrt;
  nltb := ltb;
  neqb := eqb;
  nfinite := is_finite;
|}.
End Float64.

(** Exact arithmetic: the real numbers, where every value is finite. *)
Module Exact.
Definition Rltb (a b : R) : bool := if Rlt_dec a b then true else false.
Definition Reqb (a b : R) : bool := if Req_dec_T a b then true else false.

#[global] Instance R_Number : Number R := {|
  num0 := 0%R;
  num1 := 1%R;
  nadd := Rplus;
  nsub := Rminus;
  nmul := Rmult;
  ndiv := Rdiv;
  nsqrt := sqrt;
  nltb := Rltb;
  neqb := Reqb;
  nfinite := λ _, true;
|}.
End Exact.

(** ** Data model *)

Section Data.
Context {T : Type}.

(** [Vector3]: the three coordinates. *)
Record Vector3 := { x : T; y : T; z : T }.

(** [Plane]: a normal and an offset.  The [Plane] constructor gives every
    plane a normal vector of its own, so the normal is kept inside the
    plane. *)
Record Plane := { normal : Vector3; d : T }.

(** [Matrix]: the sixteen entries of [transform.m], row-major; [m3] is
    [m[3]]. *)
Record Matrix := {
  m0 : T;  m1 : T;  m2 : T;  m3 : T;
  m4 : T;  m5 : T;  m6 : T;  m7 : T;
  m8 : T;  m9 : T;  m10 : T; m11 : T;
  m12 : T; m13 : T; m14 : T; m15 : T;
}.

(** What an object reference can point to. *)
Inductive obj :=
  | OMatrix (t : Matrix)
  | OPlane (p : Plane)
  | OVector3 (v : Vector3).
End Data.

Arguments Vector3 : clear implicits.
Arguments Plane : clear implicits.
Arguments Matrix : clear implicits.
Arguments obj : clear implicits.

(** Object references and the object store. *)
Definition loc := nat.
Abbreviation heap T := (gmap loc (obj T)).

(** ** Computations: store passing with exceptions *)

Inductive exn := TypeError.

Inductive outcome (A : Type) :=
  | Ok (a : A)
  | Throw (e : exn).
Arguments Ok {A} a.
Arguments Throw {A} e.

Section Frustum.
Context {T : Type} `{Number T}.
Local Open Scope num_scope.

(** A computation takes the store and gives an outcome and the store it
    leaves; an exception keeps the writes made before it. *)
Definition M (A : Type) : Type := heap T → outcome A * heap T.

#[global] Instance M_ret : MRet M := λ A a h, (Ok a, h).
#[global] Instance M_bind : MBind M := λ A B k c h,
  match c h with
  | (Ok a, h') => k a h'
  | (Throw e, h') => (Throw e, h')
  end.

Definition throw {A} (e : exn) : M A := λ h, (Throw e, h).

(** Reading a property of something that is not the expected object is a
    [TypeError] (as reading a property of [undefined] is). *)
Definition read_plane (pl : loc) : M (Plane T) := λ h,
  match h !! pl with
  | Some (OPlane p) => (Ok p, h)
  | _ => (Throw TypeError, h)
  end.

Definition read_vector (v : loc) : M (Vector3 T) := λ h,
  match h !! v with
  | Some (OVector3 p) => (Ok p, h)
  | _ => (Throw TypeError, h)
  end.

(** [transform.m] *)
Definition get_m (transform : loc) : M (Matrix T) := λ h,
  match h !! transform with
  | Some (OMatrix t) => (Ok t, h)
  | _ => (Throw TypeError, h)
  end.

Definition write_plane (pl : loc) (p : Plane T) : M unit := λ h,
  (Ok (), <[pl := OPlane p]> h).

(** [frustumPlane.normal.x = v] and its siblings. *)
Definition set_normal_x (pl : loc) (v : T) : M unit :=
  p ← read_plane pl;
  write_plane pl {| normal := {| x := v; y := y (normal p); z := z (normal p) |}; d := d p |}.

Definition set_normal_y (pl : loc) (v : T) : M unit :=
  p ← read_plane pl;
  write_plane pl {| normal := {| x := x (normal p); y := v; z := z (normal p) |}; d := d p |}.

Definition set_normal_z (pl : loc) (v : T) : M unit :=
  p ← read_plane pl;
  write_plane pl {| normal := {| x := x (normal p); y := y (normal p); z := v |}; d := d p |}.

Definition set_d (pl : loc) (v : T) : M unit :=
  p ← read_plane pl;
  write_plane pl {| normal := normal p; d := v |}.

(** [frustumPlanes[i]]: a missing element is [undefined], and the first
    thing the callers do with it is to read a property, which throws. *)
Definition index (frustumPlanes : list loc) (i : nat) : M loc :=
  match frustumPlanes !! i with
  | Some pl => mret pl
  | None => throw TypeError
  end.

(** *** The [Plane] class, which [math.frustum.ts] imports *)

(** Modelled from the spec: the [Plane] constructor of [math.plane.ts],
    which is not among the sources; [new Plane(a, b, c, d)] is a new object
    with normal [(a, b, c)] and offset [d]. *)
Definition new_Plane (a b c d0 : T) : M loc := λ h,
  let pl := fresh (dom h) in
  (Ok pl, <[pl := OPlane {| normal := {| x := a; y := b; z := c |}; d := d0 |}]> h).

(** The length of the normal, [sqrt(nx² + ny² + nz²)]. *)
Definition length_of (v : Vector3 T) : T :=
  nsqrt (x v * x v + y v * y v + z v * z v).

(** A plane whose normal cannot be scaled to unit length. *)
Definition degenerate (p : Plane T) : bool :=
  (length_of (normal p) =? num0) || negb (nfinite (length_of (normal p))).

(** The normal and the offset divided by [len]. *)
Definition scaled (p : Plane T) (len : T) : Plane T :=
  {| normal := {| x := x (normal p) / len;
                  y := y (normal p) / len;
                  z := z (normal p) / len |};
     d := d p / len |}.

(** Modelled from the spec: [Plane.normalize] of [math.plane.ts], which is
    not among the sources.  "compute len = sqrt(nx²+ny²+nz²); if len is zero
    or not finite, normalization leaves the plane degenerate.  Otherwise
    divide normal components and d by len." *)
Definition normalize (pl : loc) : M unit :=
  p ← read_plane pl;
  if degenerate p then mret ()
  else write_plane pl (scaled p (length_of (normal p))).

(** The signed distance [dot(plane.normal, point) + plane.d]. *)
Definition signed_distance (p : Plane T) (v : Vector3 T) : T :=
  x (normal p) * x v + y (normal p) * y v + z (normal p) * z v + d p.

(** Modelled from the spec: [Plane.dotCoordinate] of [math.plane.ts], which
    is not among the sources; it gives the signed distance
    [dot(plane.normal, point) + plane.d]. *)
Definition dotCoordinate (pl point : loc) : M T :=
  p ← read_plane pl;
  v ← read_vector point;
  mret (signed_distance p v).

(** *** [math.frustum.ts] *)

Definition GetNearPlaneToRef (transform frustumPlane : loc) : M unit :=
  m ← get_m transform;
  set_normal_x frustumPlane (m3 m + m2 m);;
  set_normal_y frustumPlane (m7 m + m6 m);;
  set_normal_z frustumPlane (m11 m + m10 m);;
  set_d frustumPlane (m15 m + m14 m);;
  normalize frustumPlane.

Definition GetFarPlaneToRef (transform frustumPlane : loc) : M unit :=
  m ← get_m transform;
  set_normal_x frustumPlane (m3 m - m2 m);;
  set_normal_y frustumPlane (m7 m - m6 m);;
  set_normal_z frustumPlane (m11 m - m10 m);;
  set_d frustumPlane (m15 m - m14 m);;
  normalize frustumPlane.

Definition GetLeftPlaneToRef (transform frustumPlane : loc) : M unit :=
  m ← get_m transform;
  set_normal_x frustumPlane (m3 m + m0 m);;
  set_normal_y frustumPlane (m7 m + m4 m);;
  set_normal_z frustumPlane (m11 m + m8 m);;
  set_d frustumPlane (m15 m + m12 m);;
  normalize frustumPlane.

Definition GetRightPlaneToRef (transform frustumPlane : loc) : M unit :=
  m ← get_m transform;
  set_normal_x frustumPlane (m3 m - m0 m);;
  set_normal_y frustumPlane (m7 m - m4 m);;
  set_normal_z frustumPlane (m11 m - m8 m);;
  set_d frustumPlane (m15 m - m12 m);;
  normalize frustumPlane.

Definition GetTopPlaneToRef (transform frustumPlane : loc) : M unit :=
  m ← get_m transform;
  set_normal_x frustumPlane (m3 m - m1 m);;
  set_normal_y frustumPlane (m7 m - m5 m);;
  set_normal_z frustumPlane (m11 m - m9 m);;
  set_d frustumPlane (m15 m - m13 m);;
  normalize frustumPlane.

Definition GetBottomPlaneToRef (transform frustumPlane : loc) : M unit :=
  m ← get_m transform;
  set_normal_x frustumPlane (m3 m + m1 m);;
  set_normal_y frustumPlane (m7 m + m5 m);;
  set_normal_z frustumPlane (m11 m + m9 m);;
  set_d frustumPlane (m15 m + m13 m);;
  normalize frustumPlane.

Definition GetPlanesToRef (transform : loc) (frustumPlanes : list loc) : M unit :=
  (* Near *)
  p0 ← index frustumPlanes 0; GetNearPlaneToRef transform p0;;
  (* Far *)
  p1 ← index frustumPlanes 1; GetFarPlaneToRef transform p1;;
  (* Left *)
  p2 ← index frustumPlanes 2; GetLeftPlaneToRef transform p2;;
  (* Right *)
  p3 ← index frustumPlanes 3; GetRightPlaneToRef transform p3;;
  (* Top *)
  p4 ← index frustumPlanes 4; GetTopPlaneToRef transform p4;;
  (* Bottom *)
  p5 ← index frustumPlanes 5; GetBottomPlaneToRef transform p5.

(** [for (index = 0; index < 6; index++) frustumPlanes.push(new Plane(0, 0, 0, 0))],
    with [n] the number of rounds left. *)
Fixpoint GetPlanes_loop (n : nat) (frustumPlanes : list loc) : M (list loc) :=
  match n with
  | 0 => mret frustumPlanes
  | S n' =>
      pl ← new_Plane num0 num0 num0 num0;
      GetPlanes_loop n' (frustumPlanes ++ [pl])
  end.

Definition GetPlanes (transform : loc) : M (list loc) :=
  frustumPlanes ← GetPlanes_loop 6 [];
  GetPlanesToRef transform frustumPlanes;;
  mret frustumPlanes.

(** [for (i = 0; i < 6; i++) if (frustumPlanes[i].dotCoordinate(point) < 0) return false],
    from index [i] on, with [n] the number of rounds left. *)
Fixpoint IsPointInFrustum_loop (n i : nat) (point : loc) (frustumPlanes : list loc) : M bool :=
  match n with
  | 0 => mret true
  | S n' =>
      pl ← index frustumPlanes i;
      dist ← dotCoordinate pl point;
      if dist <? num0 then mret false
      else IsPointInFrustum_loop n' (S i) point frustumPlanes
  end.

Definition IsPointInFrustum (point : loc) (frustumPlanes : list loc) : M bool :=
  IsPointInFrustum_loop 6 0 point frustumPlanes.

(** *** Vocabulary of the specification *)

(** The six planes, in the order of the slots of [GetPlanesToRef]. *)
Inductive side := Near | Far | Left | Right | Top | Bottom.

Definition sides : list side := [Near; Far; Left; Right; Top; Bottom].

(** The six named entry points, by side. *)
Definition GetPlaneToRef (k : side) : loc → loc → M unit :=
  match k with
  | Near => GetNearPlaneToRef
  | Far => GetFarPlaneToRef
  | Left => GetLeftPlaneToRef
  | Right => GetRightPlaneToRef
  | Top => GetTopPlaneToRef
  | Bottom => GetBottomPlaneToRef
  end.

Definition mkPlane (a b c d0 : T) : Plane T :=
  {| normal := {| x := a; y := b; z := c |}; d := d0 |}.

(** The table of raw coefficients of the specification (section 4.1),
    written from its words: each plane combines row 3 with another row. *)
Definition spec_raw_coefficients (k : side) (t : Matrix T) : Plane T :=
  match k with
  | Near => mkPlane (m3 t + m2 t) (m7 t + m6 t) (m11 t + m10 t) (m15 t + m14 t)
  | Far => mkPlane (m3 t - m2 t) (m7 t - m6 t) (m11 t - m10 t) (m15 t - m14 t)
  | Left => mkPlane (m3 t + m0 t) (m7 t + m4 t) (m11 t + m8 t) (m15 t + m12 t)
  | Right => mkPlane (m3 t - m0 t) (m7 t - m4 t) (m11 t - m8 t) (m15 t - m12 t)
  | Top => mkPlane (m3 t - m1 t) (m7 t - m5 t) (m11 t - m9 t) (m15 t - m13 t)
  | Bottom => mkPlane (m3 t + m1 t) (m7 t + m5 t) (m11 t + m9 t) (m15 t + m13 t)
  end.

(** The identity matrix: ones on the diagonal [m[0]], [m[5]], [m[10]],
    [m[15]], zeros elsewhere. *)
Definition Identity : Matrix T := {|
  m0 := num1;  m1 := num0;  m2 := num0;  m3 := num0;
  m4 := num0;  m5 := num1;  m6 := num0;  m7 := num0;
  m8 := num0;  m9 := num0;  m10 := num1; m11 := num0;
  m12 := num0; m13 := num0; m14 := num0; m15 := num1;
|}.

(** The value [normalize] leaves in a plane that held [p]. *)
Definition normalized (p : Plane T) : Plane T :=
  if degenerate p then p else scaled p (length_of (normal p)).

(** The plane a side's extraction ends with. *)
Definition extracted (k : side) (t : Matrix T) : Plane T :=
  normalized (spec_raw_coefficients k t).

(** The reference [pl] holds a plane. *)
Definition is_plane (h : heap T) (pl : loc) : Prop :=
  ∃ p, h !! pl = Some (OPlane p).

(** The plane value the reference [pl] holds, when it holds one. *)
Definition plane_at (h : heap T) (pl : loc) : option (Plane T) :=
  match h !! pl with
  | Some (OPlane p) => Some p
  | _ => None
  end.

(** The references [planes] hold the plane values [ps], one by one. *)
Definition hold_planes (h : heap T) (planes : list loc) (ps : list (Plane T)) : Prop :=
  Forall2 (λ pl p, h !! pl = Some (OPlane p)) planes ps.

(** The store after the extraction of side [kl.1] into the plane [kl.2]. *)
Definition assign (t : Matrix T) (h : heap T) (kl : side * loc) : heap T :=
  <[kl.2 := OPlane (extracted kl.1 t)]> h.

(** The store after the six extractions, slot by slot in the order of
    [sides]. *)
Definition extract_all (t : Matrix T) (frustumPlanes : list loc) (h : heap T) : heap T :=
  foldl (assign t) h (zip sides frustumPlanes).

(** The side written last into [l], when a list of writes has one. *)
Fixpoint last_write (kls : list (side * loc)) (l : loc) : option side :=
  match kls with
  | [] => None
  | kl :: kls' =>
      match last_write kls' l with
      | Some k => Some k
      | None => if decide (kl.2 = l) then Some kl.1 else None
      end
  end.

(** The test of [IsPointInFrustum] on one plane: the point is not strictly
    on the negative side. *)
Definition not_negative (v : Vector3 T) (p : Plane T) : bool :=
  negb (signed_distance p v <? num0).

(** A computation that leaves every object that is not a plane (a matrix, a
    point) as it is. *)
Definition keeps_other_objects {A} (c : M A) : Prop :=
  ∀ h l o, h !! l = Some o → (∀ p, o ≠ OPlane p) → (c h).2 !! l = Some o.

(** A computation that writes to the store only at the references in [L]. *)
Definition writes_only {A} (L : loc → Prop) (c : M A) : Prop :=
  ∀ h l, ¬ L l → (c h).2 !! l = h !! l.

End Frustum.

(** ** Two stores to run the code on *)

Section Scenarios.
Import PrimFloat.

(** A projection whose far plane is at infinity ([m[10] = m[11]]): the raw
    normal of its far plane is the zero vector. *)
Definition projection : Matrix float := {|
  m0 := 3;  m1 := 0;  m2 := 0;     m3 := 0;
  m4 := 0;  m5 := 4;  m6 := 0;     m7 := 0;
  m8 := 0;  m9 := 0;  m10 := 1;    m11 := 1;
  m12 := 0; m13 := 0; m14 := (-2); m15 := 0;
|}%float.

(** A store in binary64: the projection, six planes as [GetPlanes] makes
    them, and a point. *)
Definition store : heap float :=
  {[ 0 := OMatrix projection;
     1 := OPlane (mkPlane 0 0 0 0)%float;
     2 := OPlane (mkPlane 0 0 0 0)%float;
     3 := OPlane (mkPlane 0 0 0 0)%float;
     4 := OPlane (mkPlane 0 0 0 0)%float;
     5 := OPlane (mkPlane 0 0 0 0)%float;
     6 := OPlane (mkPlane 0 0 0 0)%float;
     7 := OVector3 {| x := 0; y := 0; z := 5 |}%float ]}.

(** The planes of the identity matrix. *)
Definition unit_cube : list (Plane R) :=
  [ mkPlane 0 0 1 1; mkPlane 0 0 (-1) 1; mkPlane 1 0 0 1;
    mkPlane (-1) 0 0 1; mkPlane 0 (-1) 0 1; mkPlane 0 1 0 1 ]%R.

(** A store in exact arithmetic: the identity matrix, its six planes, and a
    point on the near plane. *)
Definition exact_store : heap R :=
  {[ 0 := OMatrix Identity;
     1 := OPlane (mkPlane 0 0 1 1)%R;
     2 := OPlane (mkPlane 0 0 (-1) 1)%R;
     3 := OPlane (mkPlane 1 0 0 1)%R;
     4 := OPlane (mkPlane (-1) 0 0 1)%R;
     5 := OPlane (mkPlane 0 (-1) 0 1)%R;
     6 := OPlane (mkPlane 0 1 0 1)%R;
     7 := OVector3 {| x := 0; y := 0; z := (-1) |}%R ]}.

(** The six slots of both stores. *)
Definition six_slots : list loc := [1; 2; 3; 4; 5; 6].

End Scenarios.

(** ** Vocabulary for the further properties *)

Section Frustum_planes.
Context {T : Type} `{Number T}.

(** The six planes of a matrix, in the order of the slots. *)
Definition frustum_of (t : Matrix T) : list (Plane T) :=
  map (λ k, extracted k t) sides.

End Frustum_planes.

Section Clip_space.
Local Open Scope R_scope.

(** The homogeneous coordinates of a point transformed by the matrix (the
    point as a row vector, times the row-major matrix). *)
Definition clip_x (t : Matrix R) (v : Vector3 R) : R :=
  x v * m0 t + y v * m4 t + z v * m8 t + m12 t.
Definition clip_y (t : Matrix R) (v : Vector3 R) : R :=
  x v * m1 t + y v * m5 t + z v * m9 t + m13 t.
Definition clip_z (t : Matrix R) (v : Vector3 R) : R :=
  x v * m2 t + y v * m6 t + z v * m10 t + m14 t.
Definition clip_w (t : Matrix R) (v : Vector3 R) : R :=
  x v * m3 t + y v * m7 t + z v * m11 t + m15 t.

(** The clip volume: [-w <= x, y, z <= w]. *)
Definition in_clip_volume (t : Matrix R) (v : Vector3 R) : Prop :=
  - clip_w t v <= clip_x t v <= clip_w t v ∧
  - clip_w t v <= clip_y t v <= clip_w t v ∧
  - clip_w t v <= clip_z t v <= clip_w t v.

(** The matrix with every entry multiplied by [c]. *)
Definition scale_matrix (c : R) (t : Matrix R) : Matrix R := {|
  m0 := c * m0 t;   m1 := c * m1 t;   m2 := c * m2 t;   m3 := c * m3 t;
  m4 := c * m4 t;   m5 := c * m5 t;   m6 := c * m6 t;   m7 := c * m7 t;
  m8 := c * m8 t;   m9 := c * m9 t;   m10 := c * m10 t; m11 := c * m11 t;
  m12 := c * m12 t; m13 := c * m13 t; m14 := c * m14 t; m15 := c * m15 t;
|}.

(** The point [s * a + (1 - s) * b] of the segment from [b] to [a]. *)
Definition mix (s : R) (a b : Vector3 R) : Vector3 R := {|
  x := s * x a + (1 - s) * x b;
  y := s * y a + (1 - s) * y b;
  z := s * z a + (1 - s) * z b;
|}.

End Clip_space.

(** ** [HDRFiltering]: the options of the constructor *)

Section HDRFiltering_options.
Import PrimFloat.

(** [IHDRFilteringOptions]: both fields are optional. *)
Record IHDRFilteringOptions := {
  options_hdrScale : option float;
  options_quality : option float;
}.

(** The fields of [HDRFiltering] that are numbers (the engine and the effect
    objects belong to the host). *)
Record HDRFiltering := {
  _lodGenerationOffset : float;
  _lodGenerationScale : float;
  quality : float;
  hdrScale : float;
}.

(** A number counts as true unless it is [0], [-0] or [NaN]. *)
Definition truthy (v : float) : bool := negb (v =? 0)%float && negb (is_nan v).

(** [a || b] for an optional number [a]: [undefined] and the numbers that
    count as false give [b]. *)
Definition or_else (a : option float) (b : float) : float :=
  match a with
  | Some v => if truthy v then v else b
  | None => b
  end.

(** [new HDRFiltering(engine, options)]: the field initialisers, then
    [this.hdrScale = options.hdrScale || this.hdrScale] and
    [this.quality = options.quality || this.quality].
    [TextureFilteringQuality.OFFLINE] comes from [Engines/constants], which
    is not among the sources, and is a parameter. *)
Definition new_HDRFiltering (OFFLINE : float) (options : IHDRFilteringOptions) : HDRFiltering :=
  let this := {| _lodGenerationOffset := 0; _lodGenerationScale := 0x1.999999999999ap-1 (* 0.8 *);
                 quality := OFFLINE; hdrScale := 1 |}%float in
  let this := {| _lodGenerationOffset := _lodGenerationOffset this;
                 _lodGenerationScale := _lodGenerationScale this;
                 quality := quality this;
                 hdrScale := or_else (options_hdrScale options) (hdrScale this) |} in
  {| _lodGenerationOffset := _lodGenerationOffset this;
     _lodGenerationScale := _lodGenerationScale this;
     quality := or_else (options_quality options) (quality this);
     hdrScale := hdrScale this |}.

End HDRFiltering_options.

(** ** More stores to run the code on *)

Section More_scenarios.
Import PrimFloat.

(** The binary64 store with a second matrix. *)
Definition two_matrices : heap float := <[8 := OMatrix Identity]> store.

(** The exact store with the identity matrix doubled, a second point on the
    far plane, and the midpoint of the two points. *)
Definition exact_store_more : heap R :=
  <[8 := OMatrix (scale_matrix 2 Identity)]>
    (<[9 := OVector3 {| x := 0; y := 0; z := 1 |}%R]>
       (<[10 := OVector3 (mix (1/2) {| x := 0; y := 0; z := (-1) |}
                                    {| x := 0; y := 0; z := 1 |})%R]> exact_store)).

(** A binary64 store with six different planes, a box around the origin
    whose near plane is at [z = 1], and two points: the origin, which the
    near plane rejects, and a point inside the box. *)
Definition box_planes : list (Plane float) :=
  [ mkPlane 0 0 1 (-1); mkPlane 0 0 (-1) 10; mkPlane 1 0 0 5;
    mkPlane (-1) 0 0 5; mkPlane 0 (-1) 0 5; mkPlane 0 1 0 5 ]%float.

Definition box_store : heap float :=
  {[ 0 := OMatrix projection;
     1 := OPlane (mkPlane 0 0 1 (-1))%float;
     2 := OPlane (mkPlane 0 0 (-1) 10)%float;
     3 := OPlane (mkPlane 1 0 0 5)%float;
     4 := OPlane (mkPlane (-1) 0 0 5)%float;
     5 := OPlane (mkPlane 0 (-1) 0 5)%float;
     6 := OPlane (mkPlane 0 1 0 5)%float;
     7 := OVector3 {| x := 0; y := 0; z := 0 |}%float;
     8 := OVector3 {| x := 0; y := 0; z := 2 |}%float ]}.

(** The same box with [NaN] as the offset of the near plane. *)
Definition nan_planes : list (Plane float) :=
  [ mkPlane 0 0 1 nan; mkPlane 0 0 (-1) 10; mkPlane 1 0 0 5;
    mkPlane (-1) 0 0 5; mkPlane 0 (-1) 0 5; mkPlane 0 1 0 5 ]%float.

Definition nan_store : heap float :=
  <[1 := OPlane (mkPlane 0 0 1 nan)%float]> box_store.





End More_scenarios.

(** ** Properties that hold in every arithmetic *)

Section Generic.
Context {T : Type} `{Number T}.
Local Open Scope num_scope.
Implicit Types (h : heap T) (t : Matrix T) (p : Plane T) (k : side).
Local Abbreviation M := (M (T:=T)).
Local Abbreviation writes_only := (writes_only (T:=T)).
Local Abbreviation keeps_other_objects := (keeps_other_objects (T:=T)).

Lemma bind_run {A B} (c : M A) (f : A → M B) h a h' :
  c h = (Ok a, h') → (c ≫= f) h = f a h'.
Proof. intros E. unfold mbind, M_bind. now rewrite E. Qed.

Lemma bind_throw {A B} (c : M A) (f : A → M B) h e h' :
  c h = (Throw e, h') → (c ≫= f) h = (Throw e, h').
Proof. intros E. unfold mbind, M_bind. now rewrite E. Qed.

Lemma read_plane_run h pl p :
  h !! pl = Some (OPlane p) → read_plane pl h = (Ok p, h).
Proof. intros E. unfold read_plane. now rewrite E. Qed.

Lemma get_m_run h transform t :
  h !! transform = Some (OMatrix t) → get_m transform h = (Ok t, h).
Proof. intros E. unfold get_m. now rewrite E. Qed.

Lemma read_vector_run h point v :
  h !! point = Some (OVector3 v) → read_vector point h = (Ok v, h).
Proof. intros E. unfold read_vector. now rewrite E. Qed.

(** Each assignment replaces one field of the plane the reference holds. *)
Lemma set_normal_x_run h pl p v :
  h !! pl = Some (OPlane p) →
  set_normal_x pl v h
  = (Ok (), <[pl := OPlane (mkPlane v (y (normal p)) (z (normal p)) (d p))]> h).
Proof. intros E. unfold set_normal_x. now rewrite (bind_run _ _ _ _ _ (read_plane_run _ _ _ E)). Qed.

Lemma set_normal_y_run h pl p v :
  h !! pl = Some (OPlane p) →
  set_normal_y pl v h
  = (Ok (), <[pl := OPlane (mkPlane (x (normal p)) v (z (normal p)) (d p))]> h).
Proof. intros E. unfold set_normal_y. now rewrite (bind_run _ _ _ _ _ (read_plane_run _ _ _ E)). Qed.

Lemma set_normal_z_run h pl p v :
  h !! pl = Some (OPlane p) →
  set_normal_z pl v h
  = (Ok (), <[pl := OPlane (mkPlane (x (normal p)) (y (normal p)) v (d p))]> h).
Proof. intros E. unfold set_normal_z. now rewrite (bind_run _ _ _ _ _ (read_plane_run _ _ _ E)). Qed.

Lemma set_d_run h pl p v :
  h !! pl = Some (OPlane p) →
  set_d pl v h
  = (Ok (), <[pl := OPlane (mkPlane (x (normal p)) (y (normal p)) (z (normal p)) v)]> h).
Proof.
  intros E. unfold set_d. rewrite (bind_run _ _ _ _ _ (read_plane_run _ _ _ E)).
  now destruct p as [[] ?].
Qed.

(** [normalize] leaves [normalized p] where [p] was. *)
Lemma normalize_run h pl p :
  h !! pl = Some (OPlane p) →
  normalize pl h = (Ok (), <[pl := OPlane (normalized p)]> h).
Proof.
  intros E. unfold normalize, normalized.
  rewrite (bind_run _ _ _ _ _ (read_plane_run _ _ _ E)).
  destruct (degenerate p); [| reflexivity].
  unfold mret, M_ret. now rewrite insert_id.
Qed.

(** The four assignments of an extraction, run from a store where the
    target is a plane, leave the raw coefficients in the target. *)
Lemma assignments_run h pl p a b c d0 (rest : M unit) :
  h !! pl = Some (OPlane p) →
  (set_normal_x pl a;; set_normal_y pl b;; set_normal_z pl c;; set_d pl d0;; rest) h
  = rest (<[pl := OPlane (mkPlane a b c d0)]> h).
Proof.
  intros E.
  rewrite (bind_run _ _ _ _ _ (set_normal_x_run _ _ _ _ E)).
  erewrite bind_run; [| apply set_normal_y_run, lookup_insert_eq ].
  erewrite bind_run; [| apply set_normal_z_run, lookup_insert_eq ].
  erewrite bind_run; [| apply set_d_run, lookup_insert_eq ].
  cbn. now rewrite !insert_insert_eq.
Qed.

Lemma GetPlaneToRef_assigns k transform frustumPlane h t p0 :
  h !! transform = Some (OMatrix t) →
  h !! frustumPlane = Some (OPlane p0) →
  GetPlaneToRef k transform frustumPlane h
  = normalize frustumPlane (<[frustumPlane := OPlane (spec_raw_coefficients k t)]> h).
Proof.
  intros Et Ep.
  destruct k; cbn [GetPlaneToRef spec_raw_coefficients];
    unfold GetNearPlaneToRef, GetFarPlaneToRef, GetLeftPlaneToRef,
      GetRightPlaneToRef, GetTopPlaneToRef, GetBottomPlaneToRef;
    rewrite (bind_run _ _ _ _ _ (get_m_run _ _ _ Et));
    apply (assignments_run _ _ _ _ _ _ _ _ Ep).
Qed.

(** What an extraction does to the store. *)
Lemma GetPlaneToRef_run k transform frustumPlane h t p0 :
  h !! transform = Some (OMatrix t) →
  h !! frustumPlane = Some (OPlane p0) →
  GetPlaneToRef k transform frustumPlane h
  = (Ok (), <[frustumPlane := OPlane (extracted k t)]> h).
Proof.
  intros Et Ep. rewrite (GetPlaneToRef_assigns _ _ _ _ _ _ Et Ep).
  rewrite (normalize_run _ _ (spec_raw_coefficients k t)) by apply lookup_insert_eq.
  now rewrite insert_insert_eq.
Qed.

(** *** All six planes *)

Lemma assign_holds_matrix t h k l transform :
  h !! transform = Some (OMatrix t) → is_plane h l →
  assign t h (k, l) !! transform = Some (OMatrix t).
Proof.
  intros Et [p Ep]. unfold assign. cbn.
  rewrite lookup_insert_ne; [done | congruence].
Qed.

Lemma assign_is_plane t h k l l' :
  is_plane h l' → is_plane (assign t h (k, l)) l'.
Proof.
  intros [p Ep]. unfold assign, is_plane. cbn.
  destruct (decide (l = l')) as [->|Hne].
  - rewrite lookup_insert_eq. eauto.
  - rewrite lookup_insert_ne by done. eauto.
Qed.

Lemma GetPlaneToRef_assign k transform frustumPlane h t :
  h !! transform = Some (OMatrix t) → is_plane h frustumPlane →
  GetPlaneToRef k transform frustumPlane h = (Ok (), assign t h (k, frustumPlane)).
Proof. intros Et [p Ep]. apply (GetPlaneToRef_run _ _ _ _ _ _ Et Ep). Qed.

Lemma index_run (frustumPlanes : list loc) i pl h :
  frustumPlanes !! i = Some pl → index frustumPlanes i h = (Ok pl, h).
Proof. intros E. unfold index. now rewrite E. Qed.

Lemma index_throw (frustumPlanes : list loc) i h :
  frustumPlanes !! i = None → index frustumPlanes i h = (Throw TypeError, h).
Proof. intros E. unfold index. now rewrite E. Qed.

(** With a plane in each of the six slots, [GetPlanesToRef] is the six
    writes in a row. *)
Lemma GetPlanesToRef_run transform frustumPlanes h t :
  h !! transform = Some (OMatrix t) →
  length frustumPlanes = 6 →
  Forall (is_plane h) frustumPlanes →
  GetPlanesToRef transform frustumPlanes h = (Ok (), extract_all t frustumPlanes h).
Proof.
  intros Et Hlen Hall.
  destruct frustumPlanes as [|l0 [|l1 [|l2 [|l3 [|l4 [|l5 [|]]]]]]]; try discriminate.
  repeat match goal with
         | H : Forall _ (_ :: _) |- _ => apply Forall_cons in H; destruct H as [? H]
         end.
  unfold GetPlanesToRef, extract_all. cbn [zip zip_with sides foldl].
  change GetNearPlaneToRef with (GetPlaneToRef Near).
  change GetFarPlaneToRef with (GetPlaneToRef Far).
  change GetLeftPlaneToRef with (GetPlaneToRef Left).
  change GetRightPlaneToRef with (GetPlaneToRef Right).
  change GetTopPlaneToRef with (GetPlaneToRef Top).
  change GetBottomPlaneToRef with (GetPlaneToRef Bottom).
  repeat (erewrite bind_run; [| now apply index_run ];
          erewrite bind_run;
            [| apply GetPlaneToRef_assign;
               [ repeat (apply assign_holds_matrix; [| repeat apply assign_is_plane; assumption ]);
                 exact Et
               | repeat apply assign_is_plane; assumption ] ]).
  erewrite bind_run; [| now apply index_run ].
  apply GetPlaneToRef_assign.
  - repeat (apply assign_holds_matrix; [| repeat apply assign_is_plane; assumption ]).
    exact Et.
  - repeat apply assign_is_plane; assumption.
Qed.

(** A reference holds what was written into it last, or what it held. *)
Lemma lookup_writes t kls h l :
  foldl (assign t) h kls !! l
  = match last_write kls l with
    | Some k => Some (OPlane (extracted k t))
    | None => h !! l
    end.
Proof.
  revert h. induction kls as [|[k0 l0] kls IH]; intros h; [done|].
  cbn [foldl last_write]. rewrite IH.
  destruct (last_write kls l); [done|].
  unfold assign. cbn. destruct (decide (l0 = l)) as [->|Hne].
  - apply lookup_insert_eq.
  - now apply lookup_insert_ne.
Qed.

Lemma last_write_None kls l :
  l ∉ kls.*2 → last_write kls l = None.
Proof.
  induction kls as [|[k0 l0] kls IH]; [done|].
  cbn. intros Hnot. apply not_elem_of_cons in Hnot as [Hne Hnot].
  rewrite IH by done. destruct (decide (l0 = l)); congruence.
Qed.

Lemma last_write_NoDup kls i k l :
  NoDup kls.*2 → kls !! i = Some (k, l) → last_write kls l = Some k.
Proof.
  revert i. induction kls as [|[k0 l0] kls IH]; intros i Hnd Hi; [done|].
  cbn in Hnd. apply NoDup_cons in Hnd as [Hnot Hnd]. cbn.
  destruct i as [|i]; cbn in Hi.
  - injection Hi as -> ->. rewrite last_write_None by done.
    now rewrite decide_True.
  - now rewrite (IH i).
Qed.

Lemma zip_sides_snd (frustumPlanes : list loc) :
  length frustumPlanes = 6 → (zip sides frustumPlanes).*2 = frustumPlanes.
Proof.
  intros Hlen. apply snd_zip. rewrite Hlen. cbn. lia.
Qed.

(** In distinct slots, slot [i] ends with the plane of side [i]. *)
Lemma extract_all_slot t frustumPlanes h i k pl :
  length frustumPlanes = 6 → NoDup frustumPlanes →
  sides !! i = Some k → frustumPlanes !! i = Some pl →
  extract_all t frustumPlanes h !! pl = Some (OPlane (extracted k t)).
Proof.
  intros Hlen Hnd Hk Hpl. unfold extract_all. rewrite lookup_writes.
  rewrite (last_write_NoDup _ i k pl); [done | by rewrite zip_sides_snd |].
  rewrite lookup_zip_with, Hk. cbn. now rewrite Hpl.
Qed.

(** Outside the slots nothing changes. *)
Lemma extract_all_other t frustumPlanes h l :
  length frustumPlanes = 6 → l ∉ frustumPlanes →
  extract_all t frustumPlanes h !! l = h !! l.
Proof.
  intros Hlen Hnot. unfold extract_all. rewrite lookup_writes.
  rewrite last_write_None; [done | by rewrite zip_sides_snd].
Qed.

(** Writing the same six planes again changes nothing. *)
Lemma extract_all_twice t frustumPlanes h :
  extract_all t frustumPlanes (extract_all t frustumPlanes h)
  = extract_all t frustumPlanes h.
Proof.
  apply map_eq; intros l. unfold extract_all. rewrite !lookup_writes.
  now destruct (last_write _ l).
Qed.

Lemma extract_all_is_plane t frustumPlanes h l :
  is_plane h l → is_plane (extract_all t frustumPlanes h) l.
Proof.
  intros [p Ep]. unfold is_plane, extract_all. rewrite lookup_writes.
  destruct (last_write _ l); eauto.
Qed.

Lemma extract_all_holds_matrix t frustumPlanes h transform :
  length frustumPlanes = 6 → Forall (is_plane h) frustumPlanes →
  h !! transform = Some (OMatrix t) →
  extract_all t frustumPlanes h !! transform = Some (OMatrix t).
Proof.
  intros Hlen Hall Et. rewrite extract_all_other; [done..|].
  intros Hin. rewrite Forall_forall in Hall.
  destruct (Hall _ Hin) as [p Ep]. congruence.
Qed.

(** *** Allocation *)

Lemma new_Plane_run a b c d0 h :
  let pl := fresh (dom h) in
  new_Plane a b c d0 h = (Ok pl, <[pl := OPlane (mkPlane a b c d0)]> h) ∧ h !! pl = None.
Proof. split; [done|]. apply not_elem_of_dom, is_fresh. Qed.

(** The loop of [GetPlanes] adds [n] new planes and touches nothing else. *)
Lemma GetPlanes_loop_run n acc h :
  ∃ news h',
    GetPlanes_loop n acc h = (Ok (acc ++ news), h') ∧
    length news = n ∧ NoDup news ∧
    (∀ l, l ∈ news → h !! l = None ∧ is_plane h' l) ∧
    (∀ l, l ∉ news → h' !! l = h !! l).
Proof.
  revert acc h. induction n as [|n IH]; intros acc h.
  - exists [], h. rewrite app_nil_r. split; [done|]. split; [done|].
    split; [constructor|]. split; [|done].
    intros l Hin. now apply elem_of_nil in Hin.
  - destruct (new_Plane_run num0 num0 num0 num0 h) as [Enew Hfresh].
    set (pl := fresh (dom h)) in *.
    set (h1 := <[pl := OPlane (mkPlane num0 num0 num0 num0)]> h) in *.
    destruct (IH (acc ++ [pl]) h1) as (news & h' & Erun & Hlen & Hnd & Hnew & Hold).
    assert (Hpl : pl ∉ news).
    { intros Hin. destruct (Hnew _ Hin) as [Hnone _].
      unfold h1 in Hnone. now rewrite lookup_insert_eq in Hnone. }
    exists (pl :: news), h'. split; [|split; [|split; [|split]]].
    + cbn [GetPlanes_loop]. rewrite (bind_run _ _ _ _ _ Enew), Erun.
      now rewrite <- app_assoc.
    + cbn. now rewrite Hlen.
    + now constructor.
    + intros l Hin. apply elem_of_cons in Hin as [->|Hin].
      * split; [done|]. exists (mkPlane num0 num0 num0 num0).
        rewrite Hold by done. apply lookup_insert_eq.
      * destruct (Hnew _ Hin) as [Hnone Hplane]. split; [|done].
        unfold h1 in Hnone. rewrite lookup_insert_ne in Hnone; [done|].
        intros ->. contradiction.
    + intros l Hl. apply not_elem_of_cons in Hl as [Hne Hl].
      rewrite Hold by done. now apply lookup_insert_ne.
Qed.

(** [GetPlanes]: six new planes, holding the six extracted planes. *)
Lemma GetPlanes_run transform h t :
  h !! transform = Some (OMatrix t) →
  ∃ planes h',
    GetPlanes transform h = (Ok planes, h') ∧
    length planes = 6 ∧ NoDup planes ∧
    (∀ pl, pl ∈ planes → h !! pl = None) ∧
    (∀ l, l ∉ planes → h' !! l = h !! l) ∧
    (∀ i k pl, sides !! i = Some k → planes !! i = Some pl →
               h' !! pl = Some (OPlane (extracted k t))).
Proof.
  intros Et.
  destruct (GetPlanes_loop_run 6 [] h) as (planes & h6 & Erun & Hlen & Hnd & Hnew & Hold).
  cbn [app] in Erun.
  assert (Et6 : h6 !! transform = Some (OMatrix t)).
  { rewrite Hold; [done|]. intros Hin. destruct (Hnew _ Hin). congruence. }
  assert (Hall : Forall (is_plane h6) planes).
  { apply Forall_forall. intros l Hin. now apply Hnew. }
  exists planes, (extract_all t planes h6). repeat split; try done.
  - unfold GetPlanes. rewrite (bind_run _ _ _ _ _ Erun).
    now rewrite (bind_run _ _ _ _ _ (GetPlanesToRef_run _ _ _ _ Et6 Hlen Hall)).
  - intros pl Hin. now apply Hnew.
  - intros l Hl. rewrite extract_all_other by done. now apply Hold.
  - intros i k pl Hk Hpl. now apply (extract_all_slot _ _ _ i).
Qed.

(** *** The containment test *)

Lemma dotCoordinate_run h pl point p v :
  h !! pl = Some (OPlane p) → h !! point = Some (OVector3 v) →
  dotCoordinate pl point h = (Ok (signed_distance p v), h).
Proof.
  intros Ep Ev. unfold dotCoordinate.
  rewrite (bind_run _ _ _ _ _ (read_plane_run _ _ _ Ep)).
  now rewrite (bind_run _ _ _ _ _ (read_vector_run _ _ _ Ev)).
Qed.

(** With the planes it reaches present, the loop is the conjunction of the
    tests of the planes [i], ..., [i + n - 1], and writes nothing. *)
Lemma IsPointInFrustum_loop_run n i point planes h v ps :
  h !! point = Some (OVector3 v) → hold_planes h planes ps →
  i + n ≤ length planes →
  IsPointInFrustum_loop n i point planes h
  = (Ok (forallb (not_negative v) (take n (drop i ps))), h).
Proof.
  intros Ev Hps. revert i. induction n as [|n IH]; intros i Hlen; [done|].
  destruct (lookup_lt_is_Some_2 planes i) as [pl Hpl]; [lia|].
  destruct (Forall2_lookup_l _ _ _ _ _ Hps Hpl) as (p & Hp & Ep).
  cbn [IsPointInFrustum_loop].
  rewrite (bind_run _ _ _ _ _ (index_run _ _ _ _ Hpl)).
  rewrite (bind_run _ _ _ _ _ (dotCoordinate_run _ _ _ _ _ Ep Ev)).
  rewrite (drop_S _ _ _ Hp). cbn [take forallb]. unfold not_negative at 1.
  destruct (signed_distance p v <? num0); [done|].
  cbn. apply IH. lia.
Qed.

(** When the planes run out before a test fails, the loop throws. *)
Lemma IsPointInFrustum_loop_throw n i point planes h v ps :
  h !! point = Some (OVector3 v) → hold_planes h planes ps →
  Forall (λ p, not_negative v p = true) ps →
  i ≤ length planes → length planes < i + n →
  IsPointInFrustum_loop n i point planes h = (Throw TypeError, h).
Proof.
  intros Ev Hps Hall. revert i. induction n as [|n IH]; intros i Hi Hlen; [lia|].
  cbn [IsPointInFrustum_loop].
  destruct (decide (i = length planes)) as [->|Hne].
  - now rewrite (bind_throw _ _ _ _ _ (index_throw _ _ _ (lookup_ge_None_2 _ _ (le_n _)))).
  - destruct (lookup_lt_is_Some_2 planes i) as [pl Hpl]; [lia|].
    destruct (Forall2_lookup_l _ _ _ _ _ Hps Hpl) as (p & Hp & Ep).
    rewrite (bind_run _ _ _ _ _ (index_run _ _ _ _ Hpl)).
    rewrite (bind_run _ _ _ _ _ (dotCoordinate_run _ _ _ _ _ Ep Ev)).
    pose proof (Forall_lookup_1 _ _ _ _ Hall Hp) as Hnn. unfold not_negative in Hnn.
    destruct (signed_distance p v <? num0); [done|].
    apply IH; lia.
Qed.

(** In every arithmetic: with six planes the answer is true exactly when no
    signed distance to the first six planes is [< 0]. *)
Lemma IsPointInFrustum_run point planes h v ps :
  h !! point = Some (OVector3 v) → hold_planes h planes ps →
  6 ≤ length planes →
  IsPointInFrustum point planes h = (Ok (forallb (not_negative v) (take 6 ps)), h).
Proof.
  intros Ev Hps Hlen. unfold IsPointInFrustum.
  now apply (IsPointInFrustum_loop_run 6 0 _ _ _ v ps).
Qed.

(** The loop never looks beyond the first six entries. *)
Lemma IsPointInFrustum_loop_take n i point planes h :
  i + n ≤ 6 →
  IsPointInFrustum_loop n i point (take 6 planes) h
  = IsPointInFrustum_loop n i point planes h.
Proof.
  revert i h. induction n as [|n IH]; intros i h Hi; [done|].
  cbn [IsPointInFrustum_loop]. unfold index.
  rewrite lookup_take_lt by lia.
  unfold mbind, M_bind. destruct (planes !! i) as [pl|]; [|done].
  cbn. destruct (dotCoordinate pl point h) as [[dist|e] h']; [|done].
  destruct (dist <? num0); [done|]. apply IH. lia.
Qed.

(** *** Frame conditions *)

Lemma writes_only_ret {A} L (a : A) : writes_only L (mret a : M A).
Proof. now intros h l _. Qed.

Lemma writes_only_bind {A B} L (c : M A) (f : A → M B) :
  writes_only L c → (∀ a, writes_only L (f a)) → writes_only L (c ≫= f).
Proof.
  intros Hc Hf h l Hl. specialize (Hc h l Hl).
  unfold mbind, M_bind. destruct (c h) as [[a|e] h']; cbn in *.
  - now rewrite Hf.
  - done.
Qed.

Lemma writes_only_read_plane L pl : writes_only L (read_plane pl).
Proof. intros h l _. unfold read_plane. now destruct (h !! pl) as [[]|]. Qed.

Lemma writes_only_read_vector L point : writes_only L (read_vector point).
Proof. intros h l _. unfold read_vector. now destruct (h !! point) as [[]|]. Qed.

Lemma writes_only_get_m L transform : writes_only L (get_m transform).
Proof. intros h l _. unfold get_m. now destruct (h !! transform) as [[]|]. Qed.

Lemma writes_only_write_plane (L : loc → Prop) pl p :
  L pl → writes_only L (write_plane pl p).
Proof.
  intros HL h l Hl. unfold write_plane. cbn.
  apply lookup_insert_ne. intros ->. contradiction.
Qed.

Lemma writes_only_index {B} L (frustumPlanes : list loc) i (f : loc → M B) :
  (∀ pl, frustumPlanes !! i = Some pl → writes_only L (f pl)) →
  writes_only L (index frustumPlanes i ≫= f).
Proof.
  intros Hf h l Hl. unfold index, mbind, M_bind.
  destruct (frustumPlanes !! i) as [pl|] eqn:E; [|done].
  cbn. now apply Hf.
Qed.

Lemma writes_only_setters (L : loc → Prop) pl v :
  L pl →
  writes_only L (set_normal_x pl v) ∧ writes_only L (set_normal_y pl v) ∧
  writes_only L (set_normal_z pl v) ∧ writes_only L (set_d pl v).
Proof.
  intros HL. repeat split;
    (apply writes_only_bind; [apply writes_only_read_plane|]);
    intros p; now apply writes_only_write_plane.
Qed.

Lemma writes_only_normalize (L : loc → Prop) pl :
  L pl → writes_only L (normalize pl).
Proof.
  intros HL. apply writes_only_bind; [apply writes_only_read_plane|].
  intros p. destruct (degenerate p).
  - apply writes_only_ret.
  - now apply writes_only_write_plane.
Qed.

(** An extraction writes to its target plane only. *)
Lemma writes_only_GetPlaneToRef (L : loc → Prop) k transform frustumPlane :
  L frustumPlane → writes_only L (GetPlaneToRef k transform frustumPlane).
Proof.
  intros HL.
  destruct k; cbn [GetPlaneToRef];
    unfold GetNearPlaneToRef, GetFarPlaneToRef, GetLeftPlaneToRef,
      GetRightPlaneToRef, GetTopPlaneToRef, GetBottomPlaneToRef;
    (apply writes_only_bind; [apply writes_only_get_m|]); intros m;
    repeat (apply writes_only_bind;
            [ first [ now apply writes_only_setters ] | intros _ ]);
    now apply writes_only_normalize.
Qed.

(** [GetPlanesToRef] writes to the planes of the sequence only. *)
Lemma writes_only_GetPlanesToRef transform frustumPlanes :
  writes_only (λ l, l ∈ frustumPlanes) (GetPlanesToRef transform frustumPlanes).
Proof.
  unfold GetPlanesToRef.
  change GetNearPlaneToRef with (GetPlaneToRef Near).
  change GetFarPlaneToRef with (GetPlaneToRef Far).
  change GetLeftPlaneToRef with (GetPlaneToRef Left).
  change GetRightPlaneToRef with (GetPlaneToRef Right).
  change GetTopPlaneToRef with (GetPlaneToRef Top).
  change GetBottomPlaneToRef with (GetPlaneToRef Bottom).
  repeat (apply writes_only_index; intros ? ?%list_elem_of_lookup_2;
          first [ apply writes_only_bind;
                  [ now apply writes_only_GetPlaneToRef | intros _ ]
                | now apply writes_only_GetPlaneToRef ]).
Qed.

Lemma writes_only_dotCoordinate L pl point : writes_only L (dotCoordinate pl point).
Proof.
  apply writes_only_bind; [apply writes_only_read_plane|]. intros p.
  apply writes_only_bind; [apply writes_only_read_vector|]. intros v.
  apply writes_only_ret.
Qed.

Lemma writes_only_IsPointInFrustum_loop L n i point frustumPlanes :
  writes_only L (IsPointInFrustum_loop n i point frustumPlanes).
Proof.
  revert i. induction n as [|n IH]; intros i; [apply writes_only_ret|].
  cbn [IsPointInFrustum_loop]. apply writes_only_index. intros pl _.
  apply writes_only_bind; [apply writes_only_dotCoordinate|]. intros dist.
  destruct (dist <? num0); [apply writes_only_ret | apply IH].
Qed.

(** The containment test leaves the store as it found it, whatever it is
    given and however it ends. *)
Lemma IsPointInFrustum_pure point frustumPlanes h :
  (IsPointInFrustum point frustumPlanes h).2 = h.
Proof.
  apply map_eq. intros l.
  now apply (writes_only_IsPointInFrustum_loop (λ _, False)).
Qed.

(** *** Matrices and points are never written *)

Lemma keeps_bind {A B} (c : M A) (f : A → M B) :
  keeps_other_objects c → (∀ a, keeps_other_objects (f a)) →
  keeps_other_objects (c ≫= f).
Proof.
  intros Hc Hf h l o E Ho. specialize (Hc h l o E Ho).
  unfold mbind, M_bind. destruct (c h) as [[a|e] h']; cbn in *.
  - now apply Hf.
  - done.
Qed.

Lemma keeps_get_m transform : keeps_other_objects (get_m transform).
Proof. intros h l o E _. unfold get_m. now destruct (h !! transform) as [[]|]. Qed.

Lemma keeps_index {B} (frustumPlanes : list loc) i (f : loc → M B) :
  (∀ pl, keeps_other_objects (f pl)) →
  keeps_other_objects (index frustumPlanes i ≫= f).
Proof.
  intros Hf h l o E Ho. unfold index, mbind, M_bind.
  destruct (frustumPlanes !! i) as [pl|]; [|done].
  cbn. now apply Hf.
Qed.

(** A plane is only written after it has been read as a plane. *)
Lemma keeps_update pl (g : Plane T → Plane T) :
  keeps_other_objects (p ← read_plane pl; write_plane pl (g p)).
Proof.
  intros h l o E Ho. unfold mbind, M_bind, read_plane, write_plane.
  destruct (h !! pl) as [[ | p | ]|] eqn:Epl; cbn; try done.
  rewrite lookup_insert_ne; [done|]. intros ->.
  rewrite E in Epl. injection Epl as ->. now apply (Ho p).
Qed.

Lemma keeps_normalize pl : keeps_other_objects (normalize pl).
Proof.
  intros h l o E Ho. unfold normalize, mbind, M_bind, read_plane, write_plane.
  destruct (h !! pl) as [[ | p | ]|] eqn:Epl; cbn; try done.
  destruct (degenerate p); cbn; [done|].
  rewrite lookup_insert_ne; [done|]. intros ->.
  rewrite E in Epl. injection Epl as ->. now apply (Ho p).
Qed.

Lemma keeps_GetPlaneToRef k transform frustumPlane :
  keeps_other_objects (GetPlaneToRef k transform frustumPlane).
Proof.
  destruct k; cbn [GetPlaneToRef];
    unfold GetNearPlaneToRef, GetFarPlaneToRef, GetLeftPlaneToRef,
      GetRightPlaneToRef, GetTopPlaneToRef, GetBottomPlaneToRef;
    (apply keeps_bind; [apply keeps_get_m|]); intros m;
    repeat (apply keeps_bind; [ apply keeps_update | intros _ ]);
    apply keeps_normalize.
Qed.

Lemma keeps_GetPlanesToRef transform frustumPlanes :
  keeps_other_objects (GetPlanesToRef transform frustumPlanes).
Proof.
  unfold GetPlanesToRef.
  change GetNearPlaneToRef with (GetPlaneToRef Near).
  change GetFarPlaneToRef with (GetPlaneToRef Far).
  change GetLeftPlaneToRef with (GetPlaneToRef Left).
  change GetRightPlaneToRef with (GetPlaneToRef Right).
  change GetTopPlaneToRef with (GetPlaneToRef Top).
  change GetBottomPlaneToRef with (GetPlaneToRef Bottom).
  repeat (apply keeps_index; intros ?;
          first [ apply keeps_bind; [ apply keeps_GetPlaneToRef | intros _ ]
                | apply keeps_GetPlaneToRef ]).
Qed.

Lemma last_write_is_Some kls l : l ∈ kls.*2 → is_Some (last_write kls l).
Proof.
  induction kls as [|[k0 l0] kls IH]; cbn; intros Hin.
  - now apply elem_of_nil in Hin.
  - destruct (last_write kls l) as [k|] eqn:E; [eauto|].
    apply elem_of_cons in Hin as [->|Hin].
    + rewrite decide_True by done. eauto.
    + destruct (IH Hin) as [? ?]. discriminate.
Qed.

(** What a slot of the sequence ends with depends on the matrix and on the
    sequence, not on the store. *)
Lemma extract_all_anywhere t frustumPlanes (h h2 : heap T) pl :
  length frustumPlanes = 6 → pl ∈ frustumPlanes →
  extract_all t frustumPlanes h2 !! pl = extract_all t frustumPlanes h !! pl.
Proof.
  intros Hlen Hin. unfold extract_all. rewrite !lookup_writes.
  destruct (last_write_is_Some (zip sides frustumPlanes) pl) as [k ->]; [|done].
  now rewrite zip_sides_snd.
Qed.

(** With the planes before [i] not negative and the plane [i] negative, the
    loop started at [s ≤ i] answers false. *)
Lemma IsPointInFrustum_loop_false n s i point planes h v ps p :
  h !! point = Some (OVector3 v) → hold_planes h planes ps →
  ps !! i = Some p → (signed_distance p v <? num0) = true →
  (∀ j q, j < i → ps !! j = Some q → (signed_distance q v <? num0) = false) →
  s ≤ i → i < s + n →
  IsPointInFrustum_loop n s point planes h = (Ok false, h).
Proof.
  intros Ev Hps Hp Hneg Hbefore. revert s.
  induction n as [|n IH]; intros s Hs Hi; [lia|].
  assert (Hlt : s < length planes).
  { rewrite (Forall2_length _ _ _ Hps). apply lookup_lt_Some in Hp. lia. }
  destruct (lookup_lt_is_Some_2 planes s Hlt) as [pl Hpl].
  destruct (Forall2_lookup_l _ _ _ _ _ Hps Hpl) as (q & Hq & Eq).
  cbn [IsPointInFrustum_loop].
  rewrite (bind_run _ _ _ _ _ (index_run _ _ _ _ Hpl)).
  rewrite (bind_run _ _ _ _ _ (dotCoordinate_run _ _ _ _ _ Eq Ev)).
  destruct (decide (s = i)) as [->|Hne].
  - rewrite Hp in Hq. injection Hq as <-. now rewrite Hneg.
  - rewrite (Hbefore s q) by (done || lia). apply IH; lia.
Qed.

Lemma plane_at_Some h pl p : h !! pl = Some (OPlane p) → plane_at h pl = Some p.
Proof. intros E. unfold plane_at. now rewrite E. Qed.

(** *** The extraction of one plane *)

(** C1: each of the six single-plane extractions ([GetPlaneToRef k] is
    [GetNearPlaneToRef], ..., [GetBottomPlaneToRef]) assigns to its target
    plane the raw coefficients of the table of section 4.1 for its side, and
    then normalizes the plane: it is [normalize] run on the store where the
    target holds exactly the raw coefficients; and when the length of the raw
    normal is nonzero (and finite) the plane it leaves is the raw normal and
    offset divided by that length. *)
Theorem extraction_raw_then_normalized k transform frustumPlane h t p0 :
  h !! transform = Some (OMatrix t) →
  h !! frustumPlane = Some (OPlane p0) →
  GetPlaneToRef k transform frustumPlane h
  = normalize frustumPlane (<[frustumPlane := OPlane (spec_raw_coefficients k t)]> h)
  ∧ (∀ len,
       len = length_of (normal (spec_raw_coefficients k t)) →
       (len =? num0) = false → nfinite len = true →
       GetPlaneToRef k transform frustumPlane h
       = (Ok (), <[frustumPlane := OPlane (scaled (spec_raw_coefficients k t) len)]> h)).
Proof.
  intros Et Ep. split.
  - now apply (GetPlaneToRef_assigns _ _ _ _ _ p0).
  - intros len -> Hnz Hfin.
    rewrite (GetPlaneToRef_run _ _ _ _ _ _ Et Ep).
    unfold extracted, normalized, degenerate. now rewrite Hnz, Hfin.
Qed.

(** *** All six planes, into storage of the caller *)

(** C4: with a matrix and six planes of the caller (six distinct objects),
    [GetPlanesToRef] ends normally, and slot 0 holds the near plane, slot 1
    the far plane, slot 2 the left, slot 3 the right, slot 4 the top and
    slot 5 the bottom plane ([sides] in this order); what a slot holds is what
    the single-plane extraction of its side leaves in it when called directly
    with the same matrix. *)
Theorem GetPlanesToRef_slot_by_slot transform frustumPlanes h t :
  h !! transform = Some (OMatrix t) →
  length frustumPlanes = 6 →
  Forall (is_plane h) frustumPlanes →
  NoDup frustumPlanes →
  ∃ h',
    GetPlanesToRef transform frustumPlanes h = (Ok (), h') ∧
    ∀ i k pl,
      sides !! i = Some k → frustumPlanes !! i = Some pl →
      plane_at h' pl = Some (extracted k t) ∧
      h' !! pl = (GetPlaneToRef k transform pl h).2 !! pl.
Proof.
  intros Et Hlen Hall Hnd. exists (extract_all t frustumPlanes h).
  split; [now apply GetPlanesToRef_run|].
  intros i k pl Hk Hpl.
  pose proof (extract_all_slot t _ h i k pl Hlen Hnd Hk Hpl) as Eslot.
  split; [now apply plane_at_Some|].
  rewrite Eslot. rewrite (GetPlaneToRef_assign k _ _ _ t Et).
  - unfold assign. cbn. now rewrite lookup_insert_eq.
  - apply (Forall_lookup_1 _ _ _ _ Hall Hpl).
Qed.

(** *** All six planes, allocating *)

(** C5: [GetPlanes] returns six planes that did not exist before the call
    (six distinct new objects), and what they hold is, slot for slot, what
    [GetPlanesToRef] leaves in any six planes of a caller, in any store, for
    the same matrix.  Nothing that existed before the call is changed, so
    nothing keeps a reference to the new planes: the returned sequence is the
    only way to them. *)
Theorem GetPlanes_fresh_and_equal transform h t :
  h !! transform = Some (OMatrix t) →
  ∃ planes h',
    GetPlanes transform h = (Ok planes, h') ∧
    length planes = 6 ∧ NoDup planes ∧
    (∀ pl, pl ∈ planes → h !! pl = None ∧ is_plane h' pl) ∧
    (∀ l, l ∉ planes → h' !! l = h !! l) ∧
    (∀ (h2 : heap T) transform2 slots,
       h2 !! transform2 = Some (OMatrix t) →
       length slots = 6 → Forall (is_plane h2) slots → NoDup slots →
       (GetPlanesToRef transform2 slots h2).1 = Ok () ∧
       ∀ i pl slot,
         planes !! i = Some pl → slots !! i = Some slot →
         is_Some (plane_at h' pl) ∧
         plane_at h' pl = plane_at (GetPlanesToRef transform2 slots h2).2 slot).
Proof.
  intros Et.
  destruct (GetPlanes_run transform h t Et)
    as (planes & h' & Erun & Hlen & Hnd & Hnew & Hold & Hval).
  exists planes, h'. split; [done|]. split; [done|]. split; [done|].
  split; [|split; [done|]].
  - intros pl Hin. split; [now apply Hnew|].
    apply list_elem_of_lookup in Hin as [i Hi].
    destruct (lookup_lt_is_Some_2 sides i) as [k Hk].
    { apply lookup_lt_Some in Hi. cbn. lia. }
    eexists. now apply (Hval i k).
  - intros h2 transform2 slots Et2 Hlen2 Hall2 Hnd2.
    rewrite (GetPlanesToRef_run _ _ _ _ Et2 Hlen2 Hall2). split; [done|].
    intros i pl slot Hpl Hslot. cbn [snd].
    destruct (lookup_lt_is_Some_2 sides i) as [k Hk].
    { apply lookup_lt_Some in Hpl. cbn. lia. }
    rewrite (plane_at_Some _ _ _ (Hval i k pl Hk Hpl)).
    rewrite (plane_at_Some _ _ _ (extract_all_slot t _ h2 i k slot Hlen2 Hnd2 Hk Hslot)).
    split; [eauto | done].
Qed.

(** [GetPlanes] changes nothing that existed before the call. *)
Lemma GetPlanes_keeps transform h l :
  is_Some (h !! l) → (GetPlanes transform h).2 !! l = h !! l.
Proof.
  intros [o Eo].
  destruct (GetPlanes_loop_run 6 [] h) as (planes & h6 & Erun & _ & _ & Hnew & Hold).
  cbn [app] in Erun.
  assert (Hl : l ∉ planes).
  { intros Hin. destruct (Hnew _ Hin). congruence. }
  unfold GetPlanes. rewrite (bind_run _ _ _ _ _ Erun).
  rewrite <- (Hold l Hl).
  apply (writes_only_bind (λ l, l ∈ planes)); [| |done].
  - apply writes_only_GetPlanesToRef.
  - intros _. apply writes_only_ret.
Qed.

(** *** Determinism and idempotence *)

(** C6: what an extraction leaves in its target depends on the matrix alone,
    not on what the target held or on the rest of the store (any call with
    the same matrix value leaves the same plane), and extracting a second time
    from the same matrix into the same storage gives exactly the outcome and
    the store of the first time; this for the six single-plane extractions
    and for [GetPlanesToRef]. *)
Theorem extraction_idempotent transform h t :
  h !! transform = Some (OMatrix t) →
  (∀ k frustumPlane,
     is_plane h frustumPlane →
     (∀ (h2 : heap T) transform2 frustumPlane2,
        h2 !! transform2 = Some (OMatrix t) → is_plane h2 frustumPlane2 →
        plane_at (GetPlaneToRef k transform2 frustumPlane2 h2).2 frustumPlane2
        = plane_at (GetPlaneToRef k transform frustumPlane h).2 frustumPlane) ∧
     GetPlaneToRef k transform frustumPlane (GetPlaneToRef k transform frustumPlane h).2
     = GetPlaneToRef k transform frustumPlane h)
  ∧ (∀ frustumPlanes,
       length frustumPlanes = 6 → Forall (is_plane h) frustumPlanes →
       (∀ (h2 : heap T) transform2 pl,
          h2 !! transform2 = Some (OMatrix t) → Forall (is_plane h2) frustumPlanes →
          pl ∈ frustumPlanes →
          plane_at (GetPlanesToRef transform2 frustumPlanes h2).2 pl
          = plane_at (GetPlanesToRef transform frustumPlanes h).2 pl) ∧
       GetPlanesToRef transform frustumPlanes (GetPlanesToRef transform frustumPlanes h).2
       = GetPlanesToRef transform frustumPlanes h).
Proof.
  intros Et. split.
  - intros k frustumPlane Hp. split.
    + intros h2 transform2 frustumPlane2 Et2 Hp2.
      rewrite (GetPlaneToRef_assign k _ _ _ t Et Hp).
      rewrite (GetPlaneToRef_assign k _ _ _ t Et2 Hp2).
      unfold assign, plane_at. cbn. now rewrite !lookup_insert_eq.
    + rewrite (GetPlaneToRef_assign k _ _ _ t Et Hp). cbn [snd].
      rewrite (GetPlaneToRef_assign k _ _ _ t).
      * unfold assign. cbn. now rewrite insert_insert_eq.
      * now apply assign_holds_matrix.
      * now apply assign_is_plane.
  - intros frustumPlanes Hlen Hall. split.
    + intros h2 transform2 pl Et2 Hall2 Hin.
      rewrite (GetPlanesToRef_run _ _ _ _ Et Hlen Hall).
      rewrite (GetPlanesToRef_run _ _ _ _ Et2 Hlen Hall2).
      unfold plane_at. cbn [snd]. now rewrite (extract_all_anywhere t _ h h2).
    + rewrite (GetPlanesToRef_run _ _ _ _ Et Hlen Hall). cbn [snd].
      rewrite (GetPlanesToRef_run _ _ _ t); [now rewrite extract_all_twice | | done |].
      * now apply extract_all_holds_matrix.
      * eapply Forall_impl; [exact Hall|]. intros l. apply extract_all_is_plane.
Qed.

(** *** No error is signalled *)

(** C7: whatever the matrix, singular ones included, every extraction ends
    normally: the six single-plane extractions (a raw normal that cannot be
    scaled is left in the plane as it is, nothing is divided by its length),
    [GetPlanesToRef] on six planes, where every slot is computed whether or
    not another slot is degenerate, and [GetPlanes]. *)
Theorem extraction_never_throws transform h t :
  h !! transform = Some (OMatrix t) →
  (∀ k frustumPlane,
     is_plane h frustumPlane →
     (GetPlaneToRef k transform frustumPlane h).1 = Ok () ∧
     (degenerate (spec_raw_coefficients k t) = true →
      plane_at (GetPlaneToRef k transform frustumPlane h).2 frustumPlane
      = Some (spec_raw_coefficients k t)))
  ∧ (∀ frustumPlanes,
       length frustumPlanes = 6 → Forall (is_plane h) frustumPlanes →
       (GetPlanesToRef transform frustumPlanes h).1 = Ok () ∧
       (NoDup frustumPlanes →
        ∀ i k pl,
          sides !! i = Some k → frustumPlanes !! i = Some pl →
          plane_at (GetPlanesToRef transform frustumPlanes h).2 pl
          = Some (normalized (spec_raw_coefficients k t))))
  ∧ (∃ planes, (GetPlanes transform h).1 = Ok planes ∧ length planes = 6).
Proof.
  intros Et. split; [|split].
  - intros k frustumPlane Hp.
    rewrite (GetPlaneToRef_assign k _ _ _ t Et Hp). split; [done|].
    intros Hdeg. unfold assign, plane_at, extracted, normalized. cbn.
    now rewrite lookup_insert_eq, Hdeg.
  - intros frustumPlanes Hlen Hall.
    rewrite (GetPlanesToRef_run _ _ _ _ Et Hlen Hall). split; [done|].
    intros Hnd i k pl Hk Hpl. cbn [snd].
    now apply plane_at_Some, (extract_all_slot _ _ _ i).
  - destruct (GetPlanes_run transform h t Et) as (planes & h' & Erun & Hlen & _).
    exists planes. now rewrite Erun.
Qed.

(** *** What is written and what is not *)

(** C8: no operation writes to a matrix or to a point: an object of the
    store that is not a plane is the same after every extraction, so the
    input matrix is never mutated; an extraction writes to its target plane
    only, [GetPlanesToRef] to the planes of the sequence only, [GetPlanes] to
    nothing that existed before; and [IsPointInFrustum] leaves the whole
    store, the point and every plane, as it was, whatever it is given and
    however it ends. *)
Theorem inputs_not_mutated (h : heap T) :
  (∀ k transform frustumPlane,
     (∀ t, h !! transform = Some (OMatrix t) →
           (GetPlaneToRef k transform frustumPlane h).2 !! transform = Some (OMatrix t)) ∧
     (∀ l, l ≠ frustumPlane →
           (GetPlaneToRef k transform frustumPlane h).2 !! l = h !! l))
  ∧ (∀ transform frustumPlanes,
       (∀ t, h !! transform = Some (OMatrix t) →
             (GetPlanesToRef transform frustumPlanes h).2 !! transform = Some (OMatrix t)) ∧
       (∀ l, l ∉ frustumPlanes →
             (GetPlanesToRef transform frustumPlanes h).2 !! l = h !! l))
  ∧ (∀ transform l, is_Some (h !! l) → (GetPlanes transform h).2 !! l = h !! l)
  ∧ (∀ point frustumPlanes, (IsPointInFrustum point frustumPlanes h).2 = h).
Proof.
  split; [|split; [|split]].
  - intros k transform frustumPlane. split.
    + intros t Et. now apply keeps_GetPlaneToRef.
    + intros l Hl. now apply (writes_only_GetPlaneToRef (λ l, l = frustumPlane)).
  - intros transform frustumPlanes. split.
    + intros t Et. now apply keeps_GetPlanesToRef.
    + intros l Hl. now apply writes_only_GetPlanesToRef.
  - intros transform l. apply GetPlanes_keeps.
  - intros point frustumPlanes. apply IsPointInFrustum_pure.
Qed.

(** *** The six planes the test needs *)

(** C10: [IsPointInFrustum] reads the elements 0 to 5 of the sequence and
    stops before the end only at a plane with a negative signed distance.
    With six planes or more every element it reads is there and the call ends
    with a boolean; with fewer than six planes, none of them with a negative
    signed distance, it reads a missing element and throws; a negative signed
    distance at a plane that is there ends the call with false before the
    missing element is reached. *)
Theorem IsPointInFrustum_needs_six_planes point frustumPlanes h v ps :
  h !! point = Some (OVector3 v) →
  hold_planes h frustumPlanes ps →
  (6 ≤ length frustumPlanes →
   ∃ b, IsPointInFrustum point frustumPlanes h = (Ok b, h))
  ∧ (length frustumPlanes < 6 →
     Forall (λ p, (signed_distance p v <? num0) = false) ps →
     IsPointInFrustum point frustumPlanes h = (Throw TypeError, h))
  ∧ (∀ i p,
       i < 6 → ps !! i = Some p → (signed_distance p v <? num0) = true →
       (∀ j q, j < i → ps !! j = Some q → (signed_distance q v <? num0) = false) →
       IsPointInFrustum point frustumPlanes h = (Ok false, h)).
Proof.
  intros Ev Hps. split; [|split].
  - intros Hlen. eexists. unfold IsPointInFrustum.
    now apply (IsPointInFrustum_loop_run 6 0 _ _ _ v ps).
  - intros Hlen Hall. unfold IsPointInFrustum.
    apply (IsPointInFrustum_loop_throw 6 0 _ _ _ v ps); try done; try lia.
    eapply Forall_impl; [exact Hall|]. intros p Hp. unfold not_negative. now rewrite Hp.
  - intros i p Hi Hp Hneg Hbefore. unfold IsPointInFrustum.
    apply (IsPointInFrustum_loop_false 6 0 i _ _ _ v ps p); try done; lia.
Qed.

End Generic.

(** ** Properties in exact arithmetic *)

Section Exact_arithmetic.
Import Exact.
Local Open Scope R_scope.
Implicit Types (h : heap R) (t : Matrix R) (p : Plane R) (v : Vector3 R) (k : side).

Lemma Rltb_false_iff a b : Rltb a b = false ↔ b <= a.
Proof. unfold Rltb. destruct (Rlt_dec a b); split; intros; (lra || done). Qed.

Lemma Reqb_false_iff a b : Reqb a b = false ↔ a ≠ b.
Proof. unfold Reqb. destruct (Req_dec_T a b); split; intros; (done || lra). Qed.

Lemma not_negative_iff v p : not_negative v p = true ↔ 0 <= signed_distance p v.
Proof.
  unfold not_negative. rewrite negb_true_iff.
  apply (Rltb_false_iff (signed_distance p v) 0).
Qed.

Lemma forallb_take_lookup {A} (f : A → bool) (l : list A) n :
  forallb f (take n l) = true ↔ ∀ i a, (i < n)%nat → l !! i = Some a → f a = true.
Proof.
  rewrite forallb_forall. split.
  - intros Hall i a Hi Ha. apply Hall, list_elem_of_In, list_elem_of_lookup.
    exists i. now apply lookup_take_Some.
  - intros Hall a Hin. apply list_elem_of_In, list_elem_of_lookup in Hin as [i Hi].
    apply lookup_take_Some in Hi as [Hi Hlt]. now apply (Hall i).
Qed.

(** *** The containment test *)

(** In exact arithmetic, where every signed distance is below zero or at
    least zero: for a point and a sequence with at least six planes,
    [IsPointInFrustum] answers true exactly when the signed distance
    [dot(planes[i].normal, p) + planes[i].d] is non-negative for every index
    [i] from 0 to 5.  So a point on a plane (signed distance zero) and on the
    non-negative side of the others is inside; a negative signed distance to
    one of the first six planes gives false whatever the others are; and the
    entries beyond index 5 do not count: any sequence with the same first six
    entries gives the same answer. *)
Lemma IsPointInFrustum_exact point frustumPlanes h v ps :
  h !! point = Some (OVector3 v) →
  hold_planes h frustumPlanes ps →
  (6 ≤ length frustumPlanes)%nat →
  ∃ b,
    IsPointInFrustum point frustumPlanes h = (Ok b, h) ∧
    (b = true ↔ ∀ i p, (i < 6)%nat → ps !! i = Some p → 0 <= signed_distance p v) ∧
    (∀ i p,
       (i < 6)%nat → ps !! i = Some p → signed_distance p v = 0 →
       (∀ j q, (j < 6)%nat → j ≠ i → ps !! j = Some q → 0 <= signed_distance q v) →
       b = true) ∧
    (∀ i p, (i < 6)%nat → ps !! i = Some p → signed_distance p v < 0 → b = false) ∧
    (∀ others,
       take 6 others = take 6 frustumPlanes →
       IsPointInFrustum point others h = (Ok b, h)).
Proof.
  intros Ev Hps Hlen.
  pose proof (IsPointInFrustum_run point frustumPlanes h v ps Ev Hps Hlen) as Erun.
  assert (Hiff : forallb (not_negative v) (take 6 ps) = true
                 ↔ ∀ i p, (i < 6)%nat → ps !! i = Some p → 0 <= signed_distance p v).
  { rewrite forallb_take_lookup. split; intros Hall i p Hi Hp.
    - now apply not_negative_iff, (Hall i).
    - now apply not_negative_iff, (Hall i). }
  eexists. split; [exact Erun|]. split; [exact Hiff|]. split; [|split].
  - intros i p Hi Hp Hzero Hothers. apply Hiff. intros j q Hj Hq.
    destruct (decide (j = i)) as [->|Hne].
    + rewrite Hp in Hq. injection Hq as <-. lra.
    + now apply (Hothers j).
  - intros i p Hi Hp Hneg. apply not_true_is_false. intros Htrue.
    pose proof (proj1 Hiff Htrue i p Hi Hp). lra.
  - intros others Htake. rewrite <- Erun. unfold IsPointInFrustum.
    rewrite <- (IsPointInFrustum_loop_take 6 0 point others) by lia.
    rewrite <- (IsPointInFrustum_loop_take 6 0 point frustumPlanes) by lia.
    now rewrite Htake.
Qed.

(** *** Unit normals *)


(** In exact arithmetic a plane is degenerate when its normal has length
    zero. *)
Lemma degenerate_exact p : degenerate p = Reqb (length_of (normal p)) 0.
Proof. change (degenerate p) with (Reqb (length_of (normal p)) 0 || false)%bool. apply orb_false_r. Qed.



(** *** The identity matrix *)

(** The planes the identity matrix gives, side by side. *)
Lemma identity_raw_exact k :
  spec_raw_coefficients k Identity
  = match k with
    | Near => mkPlane 0 0 1 1
    | Far => mkPlane 0 0 (-1) 1
    | Left => mkPlane 1 0 0 1
    | Right => mkPlane (-1) 0 0 1
    | Top => mkPlane 0 (-1) 0 1
    | Bottom => mkPlane 0 1 0 1
    end.
Proof. destruct k; cbn; unfold mkPlane; repeat f_equal; lra. Qed.

Lemma identity_raw_length k :
  length_of (normal (spec_raw_coefficients k Identity)) = 1.
Proof.
  rewrite identity_raw_exact. destruct k; unfold length_of; cbn;
    match goal with |- sqrt ?a = 1 => replace a with 1 by lra end; apply sqrt_1.
Qed.

Lemma identity_extracted_exact k :
  extracted k Identity = spec_raw_coefficients k Identity.
Proof.
  unfold extracted, normalized. rewrite degenerate_exact, identity_raw_length.
  rewrite (proj2 (Reqb_false_iff 1 0)) by lra.
  rewrite identity_raw_exact. destruct k; unfold scaled, mkPlane; cbn;
    repeat f_equal; lra.
Qed.

End Exact_arithmetic.

(** ** The identity matrix, in exact arithmetic and in binary64 *)

Section Identity_matrix.
Import Exact PrimFloat.

Lemma identity_extracted_binary64 k :
  extracted k (Identity : Matrix float)
  = match k with
    | Near => mkPlane 0 0 1 1
    | Far => mkPlane 0 0 (-1) 1
    | Left => mkPlane 1 0 0 1
    | Right => mkPlane (-1) 0 0 1
    | Top => mkPlane 0 (-1) 0 1
    | Bottom => mkPlane 0 1 0 1
    end%float.
Proof. destruct k; vm_compute; reflexivity. Qed.

(** C9: with the identity matrix the six extractions leave the cardinal
    planes: near (0,0,1), far (0,0,-1), left (1,0,0), right (-1,0,0),
    top (0,-1,0), bottom (0,1,0), each with d = 1.  This holds exactly in
    exact arithmetic, and exactly too in binary64, where every step of the
    computation is exact on these values. *)
Theorem identity_planes :
  (∀ (h : heap R) transform frustumPlane p0,
     h !! transform = Some (OMatrix Identity) →
     h !! frustumPlane = Some (OPlane p0) →
     GetNearPlaneToRef transform frustumPlane h
     = (Ok (), <[frustumPlane := OPlane (mkPlane 0 0 1 1)]> h) ∧
     GetFarPlaneToRef transform frustumPlane h
     = (Ok (), <[frustumPlane := OPlane (mkPlane 0 0 (-1) 1)]> h) ∧
     GetLeftPlaneToRef transform frustumPlane h
     = (Ok (), <[frustumPlane := OPlane (mkPlane 1 0 0 1)]> h) ∧
     GetRightPlaneToRef transform frustumPlane h
     = (Ok (), <[frustumPlane := OPlane (mkPlane (-1) 0 0 1)]> h) ∧
     GetTopPlaneToRef transform frustumPlane h
     = (Ok (), <[frustumPlane := OPlane (mkPlane 0 (-1) 0 1)]> h) ∧
     GetBottomPlaneToRef transform frustumPlane h
     = (Ok (), <[frustumPlane := OPlane (mkPlane 0 1 0 1)]> h))%R
  ∧ (∀ (h : heap float) transform frustumPlane p0,
       h !! transform = Some (OMatrix Identity) →
       h !! frustumPlane = Some (OPlane p0) →
       GetNearPlaneToRef transform frustumPlane h
       = (Ok (), <[frustumPlane := OPlane (mkPlane 0 0 1 1)]> h) ∧
       GetFarPlaneToRef transform frustumPlane h
       = (Ok (), <[frustumPlane := OPlane (mkPlane 0 0 (-1) 1)]> h) ∧
       GetLeftPlaneToRef transform frustumPlane h
       = (Ok (), <[frustumPlane := OPlane (mkPlane 1 0 0 1)]> h) ∧
       GetRightPlaneToRef transform frustumPlane h
       = (Ok (), <[frustumPlane := OPlane (mkPlane (-1) 0 0 1)]> h) ∧
       GetTopPlaneToRef transform frustumPlane h
       = (Ok (), <[frustumPlane := OPlane (mkPlane 0 (-1) 0 1)]> h) ∧
       GetBottomPlaneToRef transform frustumPlane h
       = (Ok (), <[frustumPlane := OPlane (mkPlane 0 1 0 1)]> h))%float.
Proof.
  split.
  - intros h transform frustumPlane p0 Et Ep.
    pose proof (λ k, GetPlaneToRef_run k _ _ _ _ _ Et Ep) as Hrun.
    pose proof (Hrun Near) as HN. pose proof (Hrun Far) as HF.
    pose proof (Hrun Left) as HL. pose proof (Hrun Right) as HR.
    pose proof (Hrun Top) as HT. pose proof (Hrun Bottom) as HB.
    rewrite identity_extracted_exact, identity_raw_exact in HN, HF, HL, HR, HT, HB.
    now repeat split.
  - intros h transform frustumPlane p0 Et Ep.
    pose proof (λ k, GetPlaneToRef_run k _ _ _ _ _ Et Ep) as Hrun.
    pose proof (Hrun Near) as HN. pose proof (Hrun Far) as HF.
    pose proof (Hrun Left) as HL. pose proof (Hrun Right) as HR.
    pose proof (Hrun Top) as HT. pose proof (Hrun Bottom) as HB.
    rewrite identity_extracted_binary64 in HN, HF, HL, HR, HT, HB.
    now repeat split.
Qed.

End Identity_matrix.

(** ** The theorems at work on the two stores *)

Section Witnesses.
Import Exact PrimFloat.

Lemma store_planes : Forall (is_plane store) six_slots.
Proof. repeat constructor; eexists; reflexivity. Qed.

Lemma six_slots_NoDup : NoDup six_slots.
Proof. compute_done. Qed.

Lemma extraction_raw_then_normalized_witness :
  store !! 0 = Some (OMatrix projection) ∧
  store !! 1 = Some (OPlane (mkPlane 0 0 0 0)%float) ∧
  GetNearPlaneToRef 0 1 store
  = (Ok (), <[1 := OPlane (mkPlane 0 0 1 (-1))%float]> store).
Proof.
  assert (Et : store !! 0 = Some (OMatrix projection)) by reflexivity.
  assert (Ep : store !! 1 = Some (OPlane (mkPlane 0 0 0 0)%float)) by reflexivity.
  split; [exact Et|]. split; [exact Ep|].
  exact (proj2 (extraction_raw_then_normalized Near 0 1 store projection _ Et Ep)
               2%float eq_refl eq_refl eq_refl).
Defined.



Lemma GetPlanesToRef_slot_by_slot_witness :
  store !! 0 = Some (OMatrix projection) ∧
  length six_slots = 6 ∧
  Forall (is_plane store) six_slots ∧
  NoDup six_slots ∧
  ∃ h',
    GetPlanesToRef 0 six_slots store = (Ok (), h') ∧
    ∀ i k pl,
      sides !! i = Some k → six_slots !! i = Some pl →
      plane_at h' pl = Some (extracted k projection) ∧
      h' !! pl = (GetPlaneToRef k 0 pl store).2 !! pl.
Proof.
  assert (Et : store !! 0 = Some (OMatrix projection)) by reflexivity.
  assert (Hlen : length six_slots = 6) by reflexivity.
  exact (conj Et (conj Hlen (conj store_planes (conj six_slots_NoDup
           (GetPlanesToRef_slot_by_slot 0 six_slots store projection
              Et Hlen store_planes six_slots_NoDup))))).
Defined.

Lemma GetPlanes_fresh_and_equal_witness :
  store !! 0 = Some (OMatrix projection) ∧
  ∃ planes h',
    GetPlanes 0 store = (Ok planes, h') ∧
    length planes = 6 ∧ NoDup planes ∧
    (∀ pl, pl ∈ planes → store !! pl = None ∧ is_plane h' pl).
Proof.
  assert (Et : store !! 0 = Some (OMatrix projection)) by reflexivity.
  split; [exact Et|].
  destruct (GetPlanes_fresh_and_equal 0 store projection Et)
    as (planes & h' & Erun & Hlen & Hnd & Hnew & _).
  exists planes, h'. auto.
Defined.

Lemma extraction_idempotent_witness :
  store !! 0 = Some (OMatrix projection) ∧
  is_plane store 1 ∧
  GetPlaneToRef Near 0 1 (GetPlaneToRef Near 0 1 store).2 = GetPlaneToRef Near 0 1 store.
Proof.
  assert (Et : store !! 0 = Some (OMatrix projection)) by reflexivity.
  assert (Hp : is_plane store 1) by (eexists; reflexivity).
  split; [exact Et|]. split; [exact Hp|].
  exact (proj2 (proj1 (extraction_idempotent 0 store projection Et) Near 1 Hp)).
Defined.

Lemma extraction_never_throws_witness :
  store !! 0 = Some (OMatrix projection) ∧
  is_plane store 2 ∧
  degenerate (spec_raw_coefficients Far projection) = true ∧
  (GetFarPlaneToRef 0 2 store).1 = Ok () ∧
  plane_at (GetFarPlaneToRef 0 2 store).2 2 = Some (mkPlane 0 0 0 2)%float.
Proof.
  assert (Et : store !! 0 = Some (OMatrix projection)) by reflexivity.
  assert (Hp : is_plane store 2) by (eexists; reflexivity).
  assert (Hdeg : degenerate (spec_raw_coefficients Far projection) = true) by reflexivity.
  split; [exact Et|]. split; [exact Hp|]. split; [exact Hdeg|].
  destruct (proj1 (extraction_never_throws 0 store projection Et) Far 2 Hp) as [Hok Hleft].
  split; [exact Hok | exact (Hleft Hdeg)].
Defined.

Lemma inputs_not_mutated_witness :
  store !! 0 = Some (OMatrix projection) ∧
  (GetNearPlaneToRef 0 1 store).2 !! 0 = Some (OMatrix projection) ∧
  (IsPointInFrustum 7 six_slots store).2 = store.
Proof.
  assert (Et : store !! 0 = Some (OMatrix projection)) by reflexivity.
  split; [exact Et|]. split.
  - exact (proj1 (proj1 (inputs_not_mutated store) Near 0 1) projection Et).
  - exact (proj2 (proj2 (proj2 (inputs_not_mutated store))) 7 six_slots).
Defined.

Lemma identity_planes_witness :
  exact_store !! 0 = Some (OMatrix Identity) ∧
  exact_store !! 1 = Some (OPlane (mkPlane 0 0 1 1)%R) ∧
  GetTopPlaneToRef 0 1 exact_store
  = (Ok (), <[1 := OPlane (mkPlane 0 (-1) 0 1)%R]> exact_store).
Proof.
  assert (Et : exact_store !! 0 = Some (OMatrix Identity)) by reflexivity.
  assert (Ep : exact_store !! 1 = Some (OPlane (mkPlane 0 0 1 1)%R)) by reflexivity.
  split; [exact Et|]. split; [exact Ep|].
  exact (proj1 (proj2 (proj2 (proj2 (proj2
           (proj1 identity_planes exact_store 0 1 _ Et Ep)))))).
Defined.

Lemma IsPointInFrustum_needs_six_planes_witness :
  store !! 7 = Some (OVector3 {| x := 0; y := 0; z := 5 |}%float) ∧
  hold_planes store [1; 2; 3] (replicate 3 (mkPlane 0 0 0 0)%float) ∧
  IsPointInFrustum 7 [1; 2; 3] store = (Throw TypeError, store).
Proof.
  assert (Ev : store !! 7 = Some (OVector3 {| x := 0; y := 0; z := 5 |}%float))
    by reflexivity.
  assert (Hps : hold_planes store [1; 2; 3] (replicate 3 (mkPlane 0 0 0 0)%float))
    by (repeat constructor).
  split; [exact Ev|]. split; [exact Hps|].
  apply (proj1 (proj2 (IsPointInFrustum_needs_six_planes 7 [1; 2; 3] store _ _ Ev Hps))).
  - cbn. lia.
  - repeat constructor.
Defined.

End Witnesses.

(** ** Further properties, in every arithmetic *)

Section More_generic.
Context {T : Type} `{Number T}.
Local Open Scope num_scope.
Implicit Types (h : heap T) (t : Matrix T) (p : Plane T) (k : side).

Lemma zip_sides_snd_le (frustumPlanes : list loc) :
  length frustumPlanes ≤ 6 → (zip sides frustumPlanes).*2 = frustumPlanes.
Proof. intros Hlen. apply snd_zip. cbn. lia. Qed.

Lemma lookup_zip_sides (frustumPlanes : list loc) i k pl :
  zip sides frustumPlanes !! i = Some (k, pl)
  ↔ sides !! i = Some k ∧ frustumPlanes !! i = Some pl.
Proof.
  rewrite lookup_zip_with_Some. split.
  - intros (k' & pl' & [= -> ->] & Hk & Hpl). done.
  - intros [Hk Hpl]. eauto.
Qed.

(** With fewer than six planes, [GetPlanesToRef] writes the slots that are
    there and then throws. *)
Lemma GetPlanesToRef_short transform frustumPlanes h t :
  h !! transform = Some (OMatrix t) →
  length frustumPlanes < 6 →
  Forall (is_plane h) frustumPlanes →
  GetPlanesToRef transform frustumPlanes h
  = (Throw TypeError, extract_all t frustumPlanes h).
Proof.
  intros Et Hlen Hall.
  destruct frustumPlanes as [|l0 [|l1 [|l2 [|l3 [|l4 [|l5 ?]]]]]];
    cbn in Hlen; try lia;
    repeat match goal with
           | H : Forall _ (_ :: _) |- _ => apply Forall_cons in H; destruct H as [? H]
           end;
    unfold GetPlanesToRef, extract_all; cbn [zip zip_with sides foldl];
    change (@GetNearPlaneToRef T _) with (GetPlaneToRef (T:=T) Near);
    change (@GetFarPlaneToRef T _) with (GetPlaneToRef (T:=T) Far);
    change (@GetLeftPlaneToRef T _) with (GetPlaneToRef (T:=T) Left);
    change (@GetRightPlaneToRef T _) with (GetPlaneToRef (T:=T) Right);
    change (@GetTopPlaneToRef T _) with (GetPlaneToRef (T:=T) Top);
    repeat (erewrite bind_run; [| now apply index_run ];
            erewrite bind_run;
              [| apply GetPlaneToRef_assign;
                 [ repeat (apply assign_holds_matrix; [| repeat apply assign_is_plane; assumption ]);
                   exact Et
                 | repeat apply assign_is_plane; assumption ] ]);
    now erewrite bind_throw; [| now apply index_throw ].
Qed.

(** X1: called with fewer than six planes, [GetPlanesToRef] throws a
    [TypeError], but only after it has overwritten the planes that are there:
    the store it leaves differs from the one it found.  Slot [i] of the
    (distinct) planes present holds the plane of side [i], and nothing
    outside the sequence is touched. *)
Theorem GetPlanesToRef_too_few_planes transform frustumPlanes h t :
  h !! transform = Some (OMatrix t) →
  length frustumPlanes < 6 →
  Forall (is_plane h) frustumPlanes →
  ∃ h',
    GetPlanesToRef transform frustumPlanes h = (Throw TypeError, h') ∧
    (∀ l, l ∉ frustumPlanes → h' !! l = h !! l) ∧
    (NoDup frustumPlanes →
     ∀ i k pl,
       sides !! i = Some k → frustumPlanes !! i = Some pl →
       plane_at h' pl = Some (extracted k t)).
Proof.
  intros Et Hlen Hall. exists (extract_all t frustumPlanes h).
  split; [now apply GetPlanesToRef_short|]. split.
  - intros l Hl. unfold extract_all. rewrite lookup_writes, last_write_None; [done|].
    rewrite zip_sides_snd_le; [done | lia].
  - intros Hnd i k pl Hk Hpl. apply plane_at_Some.
    unfold extract_all. rewrite lookup_writes.
    rewrite (last_write_NoDup _ i k pl); [done | | by apply lookup_zip_sides].
    rewrite zip_sides_snd_le; [done | lia].
Qed.

(** X2: [GetPlanesToRef] looks at the first six entries of the sequence
    only: the call is the call on the first six entries, and an object that
    is not among them is left as it is, whatever follows them in the
    sequence. *)
Theorem GetPlanesToRef_first_six_only transform frustumPlanes h :
  GetPlanesToRef transform frustumPlanes h
  = GetPlanesToRef transform (take 6 frustumPlanes) h
  ∧ ∀ l, l ∉ take 6 frustumPlanes →
         (GetPlanesToRef transform frustumPlanes h).2 !! l = h !! l.
Proof.
  assert (E : GetPlanesToRef transform frustumPlanes h
              = GetPlanesToRef transform (take 6 frustumPlanes) h).
  { unfold GetPlanesToRef, index. now rewrite !lookup_take_lt by lia. }
  split; [exact E|]. intros l Hl. rewrite E.
  now apply writes_only_GetPlanesToRef.
Qed.

Lemma last_write_last kls i k l :
  kls !! i = Some (k, l) →
  (∀ j k', i < j → kls !! j ≠ Some (k', l)) →
  last_write kls l = Some k.
Proof.
  revert i. induction kls as [|[k0 l0] kls IH]; intros i Hi Hlater; [done|].
  cbn. destruct i as [|i]; cbn in Hi.
  - injection Hi as -> ->. rewrite last_write_None.
    + now rewrite decide_True.
    + intros Hin. apply list_elem_of_fmap in Hin as ([k' l'] & -> & Hin).
      apply list_elem_of_lookup in Hin as [j Hj].
      apply (Hlater (S j) k'); [lia | exact Hj].
  - rewrite (IH i Hi); [done|].
    intros j k' Hj. apply (Hlater (S j) k'). lia.
Qed.

(** X3: when one plane object is given in several of the six slots, it ends
    with the plane of the last slot that refers to it: a slot whose object is
    in no later slot holds the plane of its side.  With one plane in all six
    slots, that plane ends as the bottom plane. *)
Theorem GetPlanesToRef_last_slot_wins transform frustumPlanes h t :
  h !! transform = Some (OMatrix t) →
  length frustumPlanes = 6 →
  Forall (is_plane h) frustumPlanes →
  (∀ i k pl,
     sides !! i = Some k → frustumPlanes !! i = Some pl →
     (∀ j, i < j → frustumPlanes !! j ≠ Some pl) →
     plane_at (GetPlanesToRef transform frustumPlanes h).2 pl = Some (extracted k t))
  ∧ (∀ pl, frustumPlanes = replicate 6 pl →
           (GetPlanesToRef transform frustumPlanes h).2
           = <[pl := OPlane (extracted Bottom t)]> h).
Proof.
  intros Et Hlen Hall. rewrite (GetPlanesToRef_run _ _ _ _ Et Hlen Hall). cbn [snd].
  split.
  - intros i k pl Hk Hpl Hlater. apply plane_at_Some.
    unfold extract_all. rewrite lookup_writes.
    rewrite (last_write_last _ i k pl); [done | by apply lookup_zip_sides |].
    intros j k' Hj Hzip. apply lookup_zip_sides in Hzip as [_ Hzip].
    now apply (Hlater j).
  - intros pl ->. unfold extract_all. cbn. unfold assign. cbn.
    now rewrite !insert_insert_eq.
Qed.

(** X7: a later extraction into the same six planes leaves nothing of an
    earlier one: after [GetPlanesToRef] for one matrix, [GetPlanesToRef] for
    another matrix gives the outcome and the store it gives without the first
    call. *)
Theorem GetPlanesToRef_overwrites transform1 transform2 frustumPlanes h t1 t2 :
  h !! transform1 = Some (OMatrix t1) →
  h !! transform2 = Some (OMatrix t2) →
  length frustumPlanes = 6 →
  Forall (is_plane h) frustumPlanes →
  GetPlanesToRef transform2 frustumPlanes (GetPlanesToRef transform1 frustumPlanes h).2
  = GetPlanesToRef transform2 frustumPlanes h.
Proof.
  intros Et1 Et2 Hlen Hall.
  rewrite (GetPlanesToRef_run _ _ _ _ Et1 Hlen Hall). cbn [snd].
  rewrite (GetPlanesToRef_run _ _ _ _ Et2 Hlen Hall).
  rewrite (GetPlanesToRef_run _ _ _ t2); [| | done |].
  - f_equal. apply map_eq. intros l. unfold extract_all. rewrite !lookup_writes.
    now destruct (last_write _ l).
  - rewrite extract_all_other; [done..|].
    intros Hin. rewrite Forall_forall in Hall.
    destruct (Hall _ Hin) as [p Ep]. congruence.
  - eapply Forall_impl; [exact Hall|]. intros l. apply extract_all_is_plane.
Qed.

(** The planes [GetPlanes] leaves are the planes of the matrix. *)
Lemma GetPlanes_hold_planes transform h t :
  h !! transform = Some (OMatrix t) →
  ∃ planes h',
    GetPlanes transform h = (Ok planes, h') ∧
    length planes = 6 ∧
    hold_planes h' planes (frustum_of t) ∧
    (∀ pl, pl ∈ planes → h !! pl = None) ∧
    (∀ l, l ∉ planes → h' !! l = h !! l).
Proof.
  intros Et.
  destruct (GetPlanes_run transform h t Et)
    as (planes & h' & Erun & Hlen & Hnd & Hnew & Hold & Hval).
  exists planes, h'. repeat split; try done.
  apply Forall2_same_length_lookup_2; [now rewrite Hlen|].
  intros i pl p Hpl Hp. unfold frustum_of in Hp.
  rewrite list_lookup_fmap in Hp.
  destruct (sides !! i) as [k|] eqn:Hk; [|done].
  injection Hp as <-. now apply (Hval i k).
Qed.

Lemma GetPlanes_then_IsPointInFrustum_lemma transform point h t v :
  h !! transform = Some (OMatrix t) →
  h !! point = Some (OVector3 v) →
  ∃ planes h',
    GetPlanes transform h = (Ok planes, h') ∧
    IsPointInFrustum point planes h'
    = (Ok (forallb (not_negative v) (frustum_of t)), h').
Proof.
  intros Et Ev.
  destruct (GetPlanes_hold_planes transform h t Et)
    as (planes & h' & Erun & Hlen & Hps & Hnew & Hold).
  exists planes, h'. split; [done|].
  assert (Ev' : h' !! point = Some (OVector3 v)).
  { rewrite Hold; [done|]. intros Hin. rewrite (Hnew _ Hin) in Ev. discriminate. }
  rewrite (IsPointInFrustum_run point planes h' v (frustum_of t) Ev' Hps) by lia.
  now rewrite firstn_all2 by (unfold frustum_of; cbn; lia).
Qed.

(** X4: the planes [GetPlanes] returns are always enough for
    [IsPointInFrustum]: for every matrix and every point, the test on the
    returned planes ends with a boolean and never throws, and its answer is
    that no signed distance from the point to the six planes of the matrix is
    [< 0]. *)
Theorem GetPlanes_then_IsPointInFrustum transform point h t v :
  h !! transform = Some (OMatrix t) →
  h !! point = Some (OVector3 v) →
  ∃ planes h',
    GetPlanes transform h = (Ok planes, h') ∧
    IsPointInFrustum point planes h'
    = (Ok (forallb (not_negative v) (frustum_of t)), h').
Proof. apply GetPlanes_then_IsPointInFrustum_lemma. Qed.

(** X8: every call of [GetPlanes] gives planes of its own: the planes of a
    second call are none of the planes of the first, and the planes of the
    first call hold after the second call what they held before it. *)
Theorem GetPlanes_twice transform1 transform2 h t1 t2 :
  h !! transform1 = Some (OMatrix t1) →
  h !! transform2 = Some (OMatrix t2) →
  ∃ planes1 h1 planes2 h2,
    GetPlanes transform1 h = (Ok planes1, h1) ∧
    GetPlanes transform2 h1 = (Ok planes2, h2) ∧
    (∀ pl, pl ∈ planes1 → pl ∉ planes2) ∧
    hold_planes h2 planes1 (frustum_of t1) ∧
    hold_planes h2 planes2 (frustum_of t2).
Proof.
  intros Et1 Et2.
  destruct (GetPlanes_hold_planes transform1 h t1 Et1)
    as (planes1 & h1 & Erun1 & Hlen1 & Hps1 & Hnew1 & Hold1).
  assert (Et2' : h1 !! transform2 = Some (OMatrix t2)).
  { rewrite Hold1; [done|]. intros Hin. rewrite (Hnew1 _ Hin) in Et2. discriminate. }
  destruct (GetPlanes_hold_planes transform2 h1 t2 Et2')
    as (planes2 & h2 & Erun2 & Hlen2 & Hps2 & Hnew2 & Hold2).
  assert (Hdisj : ∀ pl, pl ∈ planes1 → pl ∉ planes2).
  { intros pl Hin1 Hin2. apply list_elem_of_lookup in Hin1 as [i Hi].
    destruct (Forall2_lookup_l _ _ _ _ _ Hps1 Hi) as (p & _ & Ep).
    rewrite (Hnew2 _ Hin2) in Ep. discriminate. }
  exists planes1, h1, planes2, h2. repeat split; try done.
  apply Forall2_same_length_lookup_2; [now apply (Forall2_length _ _ _ Hps1)|].
  intros i pl p Hpl Hp.
  pose proof (Forall2_lookup_lr _ _ _ _ _ _ Hps1 Hpl Hp) as Ep. cbn in Ep.
  rewrite Hold2; [done|]. apply Hdisj. now apply list_elem_of_lookup_2 in Hpl.
Qed.

(** The conjunction of the tests does not depend on the order of the
    planes. *)
Lemma forallb_hold_planes h v planes ps :
  hold_planes h planes ps →
  forallb (not_negative v) ps
  = forallb (λ pl, from_option (not_negative v) true (plane_at h pl)) planes.
Proof.
  induction 1 as [|pl p planes ps Ep _ IH]; [done|].
  cbn. now rewrite IH, (plane_at_Some _ _ _ Ep).
Qed.

Lemma forallb_Permutation {A} (f : A → bool) (l1 l2 : list A) :
  l1 ≡ₚ l2 → forallb f l1 = forallb f l2.
Proof.
  induction 1 as [|a l1 l2 _ IH|a b l|l1 l2 l3 _ IH1 _ IH2]; cbn.
  - done.
  - now rewrite IH.
  - now destruct (f a), (f b).
  - now rewrite IH1.
Qed.

(** X6: the answer of [IsPointInFrustum] does not depend on the order of the
    six planes: any rearrangement of a sequence of six planes gives the same
    outcome. *)
Theorem IsPointInFrustum_any_order point frustumPlanes rearranged h v :
  h !! point = Some (OVector3 v) →
  length frustumPlanes = 6 →
  Forall (is_plane h) frustumPlanes →
  rearranged ≡ₚ frustumPlanes →
  IsPointInFrustum point rearranged h = IsPointInFrustum point frustumPlanes h.
Proof.
  intros Ev Hlen Hall Hperm.
  assert (Hvalues : ∀ planes : list loc, Forall (is_plane h) planes →
                      ∃ ps, hold_planes h planes ps).
  { induction 1 as [|pl planes [p Ep] _ [ps Hps]].
    - exists []. constructor.
    - exists (p :: ps). now constructor. }
  destruct (Hvalues _ Hall) as [ps Hps].
  assert (Hall' : Forall (is_plane h) rearranged) by now rewrite Hperm.
  destruct (Hvalues _ Hall') as [ps' Hps'].
  assert (Hlen' : length rearranged = 6) by now rewrite Hperm.
  rewrite (IsPointInFrustum_run point _ h v ps Ev Hps) by lia.
  rewrite (IsPointInFrustum_run point _ h v ps' Ev Hps') by lia.
  rewrite !firstn_all2.
  - rewrite (forallb_hold_planes _ _ _ _ Hps), (forallb_hold_planes _ _ _ _ Hps').
    now rewrite (forallb_Permutation _ _ _ Hperm).
  - rewrite <- (Forall2_length _ _ _ Hps). lia.
  - rewrite <- (Forall2_length _ _ _ Hps'). lia.
Qed.

(** After [GetPlanesToRef] the six distinct slots hold the planes of the
    matrix. *)
Lemma GetPlanesToRef_hold_planes transform frustumPlanes h t :
  h !! transform = Some (OMatrix t) →
  length frustumPlanes = 6 →
  Forall (is_plane h) frustumPlanes →
  NoDup frustumPlanes →
  GetPlanesToRef transform frustumPlanes h = (Ok (), extract_all t frustumPlanes h) ∧
  hold_planes (extract_all t frustumPlanes h) frustumPlanes (frustum_of t).
Proof.
  intros Et Hlen Hall Hnd. split; [now apply GetPlanesToRef_run|].
  apply Forall2_same_length_lookup_2; [now rewrite Hlen|].
  intros i pl p Hpl Hp. unfold frustum_of in Hp.
  rewrite list_lookup_fmap in Hp.
  destruct (sides !! i) as [k|] eqn:Hk; [|done].
  injection Hp as <-. now apply (extract_all_slot _ _ _ i).
Qed.

End More_generic.

(** ** Further properties, in exact arithmetic *)

Section More_exact.
Import Exact.
Local Open Scope R_scope.
Implicit Types (h : heap R) (t : Matrix R) (p : Plane R) (v : Vector3 R) (k : side).

Lemma length_of_nonneg p : 0 <= length_of (normal p).
Proof. apply sqrt_pos. Qed.

Lemma signed_distance_scaled p len v :
  len ≠ 0 → signed_distance (scaled p len) v = signed_distance p v / len.
Proof. intros Hnz. unfold signed_distance, scaled. cbn. now field. Qed.

(** Scaling to unit length does not move a point across the plane. *)
Lemma signed_distance_normalized p v :
  length_of (normal p) ≠ 0 →
  (0 <= signed_distance (normalized p) v ↔ 0 <= signed_distance p v).
Proof.
  intros Hnz. unfold normalized. rewrite degenerate_exact.
  rewrite (proj2 (Reqb_false_iff _ 0) Hnz), signed_distance_scaled by done.
  pose proof (length_of_nonneg p) as Hpos.
  set (len := length_of (normal p)) in *. set (a := signed_distance p v).
  assert (Hinv : 0 < / len) by (apply Rinv_0_lt_compat; lra).
  unfold Rdiv. split; intros Ha.
  - replace a with (a * / len * len) by (field; exact Hnz).
    apply Rmult_le_pos; lra.
  - apply Rmult_le_pos; lra.
Qed.

(** The signed distances to the raw planes are the six clip inequalities. *)
Lemma raw_signed_distance k t v :
  signed_distance (spec_raw_coefficients k t) v
  = match k with
    | Near => clip_w t v + clip_z t v
    | Far => clip_w t v - clip_z t v
    | Left => clip_w t v + clip_x t v
    | Right => clip_w t v - clip_x t v
    | Top => clip_w t v - clip_y t v
    | Bottom => clip_w t v + clip_y t v
    end.
Proof.
  destruct k; unfold signed_distance, clip_x, clip_y, clip_z, clip_w; cbn; ring.
Qed.

Lemma inside_frustum_of_iff t v :
  (∀ k, length_of (normal (spec_raw_coefficients k t)) ≠ 0) →
  forallb (not_negative v) (frustum_of t) = true ↔ in_clip_volume t v.
Proof.
  intros Hnz. unfold frustum_of, in_clip_volume. cbn [map sides forallb].
  rewrite !andb_true_iff, !not_negative_iff. unfold extracted.
  rewrite !signed_distance_normalized by apply Hnz.
  rewrite !raw_signed_distance. split; intros; lra.
Qed.

(** X5: in exact arithmetic, for a matrix none of whose six raw normals has
    length zero, a point passes [IsPointInFrustum] on the extracted planes
    exactly when its transform by the matrix lies in the clip volume
    [-w <= x <= w], [-w <= y <= w], [-w <= z <= w]; this for the planes
    [GetPlanes] returns and for six distinct planes filled by
    [GetPlanesToRef]. *)
Theorem frustum_is_clip_volume transform point h t v :
  h !! transform = Some (OMatrix t) →
  h !! point = Some (OVector3 v) →
  (∀ k, length_of (normal (spec_raw_coefficients k t)) ≠ 0) →
  (∃ planes h' b,
     GetPlanes transform h = (Ok planes, h') ∧
     IsPointInFrustum point planes h' = (Ok b, h') ∧
     (b = true ↔ in_clip_volume t v))
  ∧ (∀ frustumPlanes,
       length frustumPlanes = 6%nat → Forall (is_plane h) frustumPlanes →
       NoDup frustumPlanes →
       ∃ h' b,
         GetPlanesToRef transform frustumPlanes h = (Ok (), h') ∧
         IsPointInFrustum point frustumPlanes h' = (Ok b, h') ∧
         (b = true ↔ in_clip_volume t v)).
Proof.
  intros Et Ev Hnz. split.
  - destruct (GetPlanes_then_IsPointInFrustum_lemma transform point h t v Et Ev)
      as (planes & h' & Erun & Etest).
    exists planes, h', (forallb (not_negative v) (frustum_of t)).
    split; [done|]. split; [done|]. now apply inside_frustum_of_iff.
  - intros frustumPlanes Hlen Hall Hnd.
    destruct (GetPlanesToRef_hold_planes transform frustumPlanes h t Et Hlen Hall Hnd)
      as [Erun Hps].
    exists (extract_all t frustumPlanes h), (forallb (not_negative v) (frustum_of t)).
    split; [done|]. split; [|now apply inside_frustum_of_iff].
    assert (Ev' : extract_all t frustumPlanes h !! point = Some (OVector3 v)).
    { rewrite extract_all_other; [done..|]. intros Hin.
      rewrite Forall_forall in Hall. destruct (Hall _ Hin) as [p Ep]. congruence. }
    rewrite (IsPointInFrustum_run point _ _ v (frustum_of t) Ev' Hps) by lia.
    now rewrite firstn_all2 by (unfold frustum_of; cbn; lia).
Qed.

Lemma signed_distance_mix p s va vb :
  signed_distance p (mix s va vb)
  = s * signed_distance p va + (1 - s) * signed_distance p vb.
Proof. unfold signed_distance, mix. cbn. ring. Qed.

(** X9: in exact arithmetic the points that pass the test form a convex
    set: when two points pass [IsPointInFrustum] on a sequence of planes,
    every point of the segment between them passes too. *)
Theorem inside_is_convex a b c frustumPlanes h va vb s ps :
  hold_planes h frustumPlanes ps →
  (6 ≤ length frustumPlanes)%nat →
  h !! a = Some (OVector3 va) →
  h !! b = Some (OVector3 vb) →
  h !! c = Some (OVector3 (mix s va vb)) →
  0 <= s <= 1 →
  IsPointInFrustum a frustumPlanes h = (Ok true, h) →
  IsPointInFrustum b frustumPlanes h = (Ok true, h) →
  IsPointInFrustum c frustumPlanes h = (Ok true, h).
Proof.
  intros Hps Hlen Ea Eb Ec Hs.
  rewrite (IsPointInFrustum_run a _ h va ps Ea Hps Hlen).
  rewrite (IsPointInFrustum_run b _ h vb ps Eb Hps Hlen).
  rewrite (IsPointInFrustum_run c _ h _ ps Ec Hps Hlen).
  intros [= Ha] [= Hb]. do 2 f_equal.
  rewrite forallb_take_lookup in *. intros i p Hi Hp.
  specialize (Ha i p Hi Hp). specialize (Hb i p Hi Hp).
  rewrite not_negative_iff in *. rewrite signed_distance_mix.
  apply Rplus_le_le_0_compat; apply Rmult_le_pos; lra.
Qed.

Lemma raw_scale_matrix k c t :
  spec_raw_coefficients k (scale_matrix c t)
  = mkPlane (c * x (normal (spec_raw_coefficients k t)))
            (c * y (normal (spec_raw_coefficients k t)))
            (c * z (normal (spec_raw_coefficients k t)))
            (c * d (spec_raw_coefficients k t)).
Proof.
  destruct k;
    (unfold spec_raw_coefficients, scale_matrix, mkPlane; cbn;
     (f_equal; [f_equal|]); ring).
Qed.

Lemma length_of_scale (c a b e : R) :
  0 <= c →
  sqrt (c * a * (c * a) + c * b * (c * b) + c * e * (c * e))
  = c * sqrt (a * a + b * b + e * e).
Proof.
  intros Hc.
  replace (c * a * (c * a) + c * b * (c * b) + c * e * (c * e))
    with (c * c * (a * a + b * b + e * e)) by ring.
  rewrite sqrt_mult by nra. now rewrite sqrt_square.
Qed.

(** The planes of a matrix and of a positive multiple of it are the same. *)
Lemma extracted_scale_matrix k c t :
  0 < c → length_of (normal (spec_raw_coefficients k t)) ≠ 0 →
  extracted k (scale_matrix c t) = extracted k t.
Proof.
  intros Hc Hnz. unfold extracted, normalized. rewrite !degenerate_exact.
  rewrite raw_scale_matrix.
  destruct (spec_raw_coefficients k t) as [[a b e] d0].
  unfold length_of, mkPlane in *. cbn in *.
  rewrite length_of_scale by lra.
  set (len := sqrt (a * a + b * b + e * e)) in *.
  rewrite (proj2 (Reqb_false_iff len 0) Hnz).
  rewrite (proj2 (Reqb_false_iff (c * len) 0)) by nra.
  unfold scaled. cbn.
  (f_equal; [f_equal|]); field; repeat split; (assumption || lra).
Qed.

(** X11: in exact arithmetic an extraction gives the same plane for a matrix
    and for any positive multiple of it, as long as the raw normal of the
    side is not the zero vector: the outcome and the store are the same. *)
Theorem extraction_ignores_positive_scale k transform scaled_transform frustumPlane h t c :
  h !! transform = Some (OMatrix t) →
  h !! scaled_transform = Some (OMatrix (scale_matrix c t)) →
  is_plane h frustumPlane →
  0 < c →
  length_of (normal (spec_raw_coefficients k t)) ≠ 0 →
  GetPlaneToRef k scaled_transform frustumPlane h
  = GetPlaneToRef k transform frustumPlane h.
Proof.
  intros Et Es Hp Hc Hnz.
  rewrite (GetPlaneToRef_assign k _ _ _ _ Et Hp).
  rewrite (GetPlaneToRef_assign k _ _ _ _ Es Hp).
  unfold assign. cbn. now rewrite extracted_scale_matrix.
Qed.

End More_exact.

(** ** Further properties, in binary64 *)

Section Binary64.
Import PrimFloat.

(** In binary64, "not below zero" is "NaN, or at least zero". *)
Lemma ltb_zero_false_iff (a : float) :
  (a <? 0)%float = false ↔ is_nan a = true ∨ (0 <=? a)%float = true.
Proof.
  unfold is_nan.
  rewrite FloatAxioms.ltb_spec, FloatAxioms.leb_spec, FloatAxioms.eqb_spec.
  replace (FloatOps.Prim2SF 0) with (SpecFloat.S754_zero false) by reflexivity.
  destruct (FloatOps.Prim2SF a) as [s|s| |s m e];
    unfold SpecFloat.SFltb, SpecFloat.SFleb, SpecFloat.SFeqb; cbn.
  - tauto.
  - destruct s; cbn; intuition discriminate.
  - tauto.
  - destruct s; cbn; [|tauto].
    rewrite Z.compare_refl, Pos.compare_cont_refl. cbn. intuition discriminate.
Qed.

(** X10: in binary64, with at least six planes, [IsPointInFrustum] answers
    true exactly when each of the first six signed distances is [NaN] or at
    least zero: a signed distance that is [NaN] never rejects the point. *)
Theorem IsPointInFrustum_binary64 point frustumPlanes (h : heap float) v ps :
  h !! point = Some (OVector3 v) →
  hold_planes h frustumPlanes ps →
  6 ≤ length frustumPlanes →
  ∃ b,
    IsPointInFrustum point frustumPlanes h = (Ok b, h) ∧
    (b = true ↔
     ∀ i p, i < 6 → ps !! i = Some p →
            is_nan (signed_distance p v) = true ∨
            (0 <=? signed_distance p v)%float = true).
Proof.
  intros Ev Hps Hlen. eexists. split; [now apply (IsPointInFrustum_run _ _ _ v ps)|].
  rewrite forallb_take_lookup. unfold not_negative.
  split; intros Hall i p Hi Hp; specialize (Hall i p Hi Hp).
  - apply ltb_zero_false_iff. now apply negb_true_iff in Hall.
  - apply negb_true_iff. now apply ltb_zero_false_iff.
Qed.

(** *** The options of [HDRFiltering] *)

Lemma or_else_truthy a b : truthy b = true → truthy (or_else a b) = true.
Proof.
  intros Hb. unfold or_else. destruct a as [v|]; [|done].
  now destruct (truthy v) eqn:Hv.
Qed.

(** X12: the constructor of [HDRFiltering] never keeps an option that counts
    as false: an [hdrScale] or a [quality] that is absent, [0], [-0] or [NaN]
    is replaced by the default (1, and [TextureFilteringQuality.OFFLINE]), any
    other value is kept; so, with a default quality that is not zero, both
    fields of a new filter are nonzero numbers, never [NaN]. *)
Theorem new_HDRFiltering_defaults OFFLINE options :
  truthy OFFLINE = true →
  let filter := new_HDRFiltering OFFLINE options in
  truthy (hdrScale filter) = true ∧ truthy (quality filter) = true ∧
  (∀ v, options_hdrScale options = Some v →
        hdrScale filter = if truthy v then v else 1%float) ∧
  (options_hdrScale options = None → hdrScale filter = 1%float) ∧
  (∀ v, options_quality options = Some v →
        quality filter = if truthy v then v else OFFLINE) ∧
  (options_quality options = None → quality filter = OFFLINE).
Proof.
  intros HO. cbn. split; [now apply or_else_truthy|]. split; [now apply or_else_truthy|].
  repeat split.
  - now intros v ->.
  - now intros ->.
  - now intros v ->.
  - now intros ->.
Qed.

End Binary64.

(** ** The further properties at work on the stores *)

Section More_witnesses.
Import Exact PrimFloat.

Lemma two_matrices_planes : Forall (is_plane two_matrices) six_slots.
Proof. repeat constructor; eexists; reflexivity. Qed.

Lemma exact_store_more_planes : hold_planes exact_store_more six_slots unit_cube.
Proof. repeat constructor. Qed.

(** The points of the cube [-1 <= x, y, z <= 1] pass the test on the planes
    of the identity matrix. *)
Lemma inside_unit_cube a v :
  exact_store_more !! a = Some (OVector3 v) →
  (-1 <= x v <= 1 ∧ -1 <= y v <= 1 ∧ -1 <= z v <= 1)%R →
  IsPointInFrustum a six_slots exact_store_more = (Ok true, exact_store_more).
Proof.
  intros Ea Hv.
  rewrite (IsPointInFrustum_run a _ _ v unit_cube Ea exact_store_more_planes)
    by (cbn; lia).
  do 2 f_equal. cbn [take unit_cube forallb].
  rewrite !andb_true_iff, !not_negative_iff.
  unfold signed_distance, mkPlane. cbn. repeat split; lra.
Qed.

Lemma GetPlanesToRef_too_few_planes_witness :
  store !! 0 = Some (OMatrix projection) ∧
  length [1; 2; 3] < 6 ∧
  Forall (is_plane store) [1; 2; 3] ∧
  ∃ h',
    GetPlanesToRef 0 [1; 2; 3] store = (Throw TypeError, h') ∧
    plane_at h' 1 = Some (mkPlane 0 0 1 (-1))%float.
Proof.
  assert (Et : store !! 0 = Some (OMatrix projection)) by reflexivity.
  assert (Hlen : length [1; 2; 3] < 6) by (cbn; lia).
  assert (Hall : Forall (is_plane store) [1; 2; 3])
    by (repeat constructor; eexists; reflexivity).
  assert (Hnd : NoDup [1; 2; 3]) by compute_done.
  split; [exact Et|]. split; [exact Hlen|]. split; [exact Hall|].
  destruct (GetPlanesToRef_too_few_planes 0 [1; 2; 3] store projection Et Hlen Hall)
    as (h' & Erun & _ & Hslots).
  exists h'. split; [exact Erun|].
  exact (Hslots Hnd 0 Near 1 eq_refl eq_refl).
Defined.

Lemma GetPlanesToRef_last_slot_wins_witness :
  store !! 0 = Some (OMatrix projection) ∧
  length (replicate 6 1) = 6 ∧
  Forall (is_plane store) (replicate 6 1) ∧
  (GetPlanesToRef 0 (replicate 6 1) store).2
  = <[1 := OPlane (extracted Bottom projection)]> store.
Proof.
  assert (Et : store !! 0 = Some (OMatrix projection)) by reflexivity.
  assert (Hlen : length (replicate 6 1) = 6) by reflexivity.
  assert (Hall : Forall (is_plane store) (replicate 6 1))
    by (repeat constructor; eexists; reflexivity).
  split; [exact Et|]. split; [exact Hlen|]. split; [exact Hall|].
  exact (proj2 (GetPlanesToRef_last_slot_wins 0 (replicate 6 1) store projection
                  Et Hlen Hall) 1 eq_refl).
Defined.

Lemma GetPlanes_then_IsPointInFrustum_witness :
  store !! 0 = Some (OMatrix projection) ∧
  store !! 7 = Some (OVector3 {| x := 0; y := 0; z := 5 |}%float) ∧
  ∃ planes h',
    GetPlanes 0 store = (Ok planes, h') ∧
    IsPointInFrustum 7 planes h' = (Ok true, h').
Proof.
  assert (Et : store !! 0 = Some (OMatrix projection)) by reflexivity.
  assert (Ev : store !! 7 = Some (OVector3 {| x := 0; y := 0; z := 5 |}%float))
    by reflexivity.
  split; [exact Et|]. split; [exact Ev|].
  exact (GetPlanes_then_IsPointInFrustum 0 7 store projection _ Et Ev).
Defined.

Lemma frustum_is_clip_volume_witness :
  exact_store !! 0 = Some (OMatrix Identity) ∧
  exact_store !! 7 = Some (OVector3 {| x := 0; y := 0; z := (-1) |}%R) ∧
  (∀ k, length_of (normal (spec_raw_coefficients k Identity)) ≠ 0%R) ∧
  ∃ planes h' b,
    GetPlanes 0 exact_store = (Ok planes, h') ∧
    IsPointInFrustum 7 planes h' = (Ok b, h') ∧
    (b = true ↔ in_clip_volume Identity {| x := 0; y := 0; z := (-1) |}%R).
Proof.
  assert (Et : exact_store !! 0 = Some (OMatrix Identity)) by reflexivity.
  assert (Ev : exact_store !! 7 = Some (OVector3 {| x := 0; y := 0; z := (-1) |}%R))
    by reflexivity.
  assert (Hnz : ∀ k, length_of (normal (spec_raw_coefficients k Identity)) ≠ 0%R)
    by (intros k; rewrite identity_raw_length; lra).
  split; [exact Et|]. split; [exact Ev|]. split; [exact Hnz|].
  exact (proj1 (frustum_is_clip_volume 0 7 exact_store Identity _ Et Ev Hnz)).
Defined.

Lemma box_store_planes : Forall (is_plane box_store) six_slots.
Proof. repeat constructor; eexists; reflexivity. Qed.

Lemma IsPointInFrustum_any_order_witness :
  box_store !! 7 = Some (OVector3 {| x := 0; y := 0; z := 0 |}%float) ∧
  length six_slots = 6 ∧
  Forall (is_plane box_store) six_slots ∧
  reverse six_slots ≡ₚ six_slots ∧
  hold_planes box_store six_slots box_planes ∧
  IsPointInFrustum 7 six_slots box_store = (Ok false, box_store) ∧
  IsPointInFrustum 7 (reverse six_slots) box_store = (Ok false, box_store).
Proof.
  assert (Ev : box_store !! 7 = Some (OVector3 {| x := 0; y := 0; z := 0 |}%float))
    by reflexivity.
  assert (Hlen : length six_slots = 6) by reflexivity.
  assert (Hperm : reverse six_slots ≡ₚ six_slots) by apply reverse_Permutation.
  assert (Hps : hold_planes box_store six_slots box_planes) by (repeat constructor).
  assert (Hrun : IsPointInFrustum 7 six_slots box_store = (Ok false, box_store))
    by reflexivity.
  split; [exact Ev|]. split; [exact Hlen|]. split; [exact box_store_planes|].
  split; [exact Hperm|]. split; [exact Hps|]. split; [exact Hrun|].
  rewrite <- Hrun.
  exact (IsPointInFrustum_any_order 7 six_slots (reverse six_slots) box_store _
           Ev Hlen box_store_planes Hperm).
Defined.

Lemma GetPlanesToRef_overwrites_witness :
  two_matrices !! 0 = Some (OMatrix projection) ∧
  two_matrices !! 8 = Some (OMatrix Identity) ∧
  length six_slots = 6 ∧
  Forall (is_plane two_matrices) six_slots ∧
  GetPlanesToRef 8 six_slots (GetPlanesToRef 0 six_slots two_matrices).2
  = GetPlanesToRef 8 six_slots two_matrices.
Proof.
  assert (Et1 : two_matrices !! 0 = Some (OMatrix projection)) by reflexivity.
  assert (Et2 : two_matrices !! 8 = Some (OMatrix Identity)) by reflexivity.
  assert (Hlen : length six_slots = 6) by reflexivity.
  split; [exact Et1|]. split; [exact Et2|]. split; [exact Hlen|].
  split; [exact two_matrices_planes|].
  exact (GetPlanesToRef_overwrites 0 8 six_slots two_matrices _ _
           Et1 Et2 Hlen two_matrices_planes).
Defined.

Lemma GetPlanes_twice_witness :
  two_matrices !! 0 = Some (OMatrix projection) ∧
  two_matrices !! 8 = Some (OMatrix Identity) ∧
  ∃ planes1 h1 planes2 h2,
    GetPlanes 0 two_matrices = (Ok planes1, h1) ∧
    GetPlanes 8 h1 = (Ok planes2, h2) ∧
    (∀ pl, pl ∈ planes1 → pl ∉ planes2) ∧
    hold_planes h2 planes1 (frustum_of projection) ∧
    hold_planes h2 planes2 (frustum_of Identity).
Proof.
  assert (Et1 : two_matrices !! 0 = Some (OMatrix projection)) by reflexivity.
  assert (Et2 : two_matrices !! 8 = Some (OMatrix Identity)) by reflexivity.
  split; [exact Et1|]. split; [exact Et2|].
  exact (GetPlanes_twice 0 8 two_matrices _ _ Et1 Et2).
Defined.

Lemma inside_is_convex_witness :
  hold_planes exact_store_more six_slots unit_cube ∧
  6 ≤ length six_slots ∧
  (0 <= 1 / 2 <= 1)%R ∧
  IsPointInFrustum 7 six_slots exact_store_more = (Ok true, exact_store_more) ∧
  IsPointInFrustum 9 six_slots exact_store_more = (Ok true, exact_store_more) ∧
  IsPointInFrustum 10 six_slots exact_store_more = (Ok true, exact_store_more).
Proof.
  assert (Hlen : 6 ≤ length six_slots) by (cbn; lia).
  assert (Hs : (0 <= 1 / 2 <= 1)%R) by lra.
  assert (Ha : IsPointInFrustum 7 six_slots exact_store_more = (Ok true, exact_store_more)).
  { apply (inside_unit_cube 7 {| x := 0; y := 0; z := (-1) |}%R); [reflexivity|].
    cbn. lra. }
  assert (Hb : IsPointInFrustum 9 six_slots exact_store_more = (Ok true, exact_store_more)).
  { apply (inside_unit_cube 9 {| x := 0; y := 0; z := 1 |}%R); [reflexivity|].
    cbn. lra. }
  split; [exact exact_store_more_planes|]. split; [exact Hlen|]. split; [exact Hs|].
  split; [exact Ha|]. split; [exact Hb|].
  exact (inside_is_convex 7 9 10 six_slots exact_store_more _ _ (1 / 2)%R unit_cube
           exact_store_more_planes Hlen eq_refl eq_refl eq_refl Hs Ha Hb).
Defined.

Lemma IsPointInFrustum_binary64_witness :
  nan_store !! 7 = Some (OVector3 {| x := 0; y := 0; z := 0 |}%float) ∧
  hold_planes nan_store six_slots nan_planes ∧
  6 ≤ length six_slots ∧
  is_nan (signed_distance (mkPlane 0 0 1 nan)%float {| x := 0; y := 0; z := 0 |}%float)
  = true ∧
  IsPointInFrustum 7 six_slots nan_store = (Ok true, nan_store).
Proof.
  assert (Ev : nan_store !! 7 = Some (OVector3 {| x := 0; y := 0; z := 0 |}%float))
    by reflexivity.
  assert (Hps : hold_planes nan_store six_slots nan_planes) by (repeat constructor).
  assert (Hlen : 6 ≤ length six_slots) by (cbn; lia).
  split; [exact Ev|]. split; [exact Hps|]. split; [exact Hlen|].
  split; [reflexivity|].
  destruct (IsPointInFrustum_binary64 7 six_slots nan_store _ _ Ev Hps Hlen)
    as (b & Erun & Hiff).
  rewrite Erun. do 2 f_equal. apply Hiff. intros i p Hi Hp.
  destruct i as [|[|[|[|[|[|]]]]]]; try lia; cbn in Hp; injection Hp as <-;
    [left | right | right | right | right | right]; reflexivity.
Defined.

Lemma extraction_ignores_positive_scale_witness :
  exact_store_more !! 0 = Some (OMatrix Identity) ∧
  exact_store_more !! 8 = Some (OMatrix (scale_matrix 2 Identity)) ∧
  is_plane exact_store_more 1 ∧
  (0 < 2)%R ∧
  length_of (normal (spec_raw_coefficients Near Identity)) ≠ 0%R ∧
  GetPlaneToRef Near 8 1 exact_store_more = GetPlaneToRef Near 0 1 exact_store_more.
Proof.
  assert (Et : exact_store_more !! 0 = Some (OMatrix Identity)) by reflexivity.
  assert (Es : exact_store_more !! 8 = Some (OMatrix (scale_matrix 2 Identity)))
    by reflexivity.
  assert (Hp : is_plane exact_store_more 1) by (eexists; reflexivity).
  assert (Hc : (0 < 2)%R) by lra.
  assert (Hnz : length_of (normal (spec_raw_coefficients Near Identity)) ≠ 0%R)
    by (rewrite identity_raw_length; lra).
  split; [exact Et|]. split; [exact Es|]. split; [exact Hp|]. split; [exact Hc|].
  split; [exact Hnz|].
  exact (extraction_ignores_positive_scale Near 0 8 1 exact_store_more Identity 2
           Et Es Hp Hc Hnz).
Defined.

Lemma new_HDRFiltering_defaults_witness :
  truthy 4096 = true ∧
  hdrScale (new_HDRFiltering 4096 {| options_hdrScale := Some 0%float;
                                     options_quality := None |}) = 1%float ∧
  quality (new_HDRFiltering 4096 {| options_hdrScale := Some 0%float;
                                    options_quality := None |}) = 4096%float.
Proof.
  assert (HO : truthy 4096 = true) by reflexivity.
  split; [exact HO|].
  pose proof (new_HDRFiltering_defaults 4096
                {| options_hdrScale := Some 0%float; options_quality := None |} HO)
    as (_ & _ & Hscale & _ & _ & Hquality).
  split; [exact (Hscale _ eq_refl) | exact (Hquality eq_refl)].
Defined.

End More_witnesses.

(** ** The containment test and the unit normals, in the arithmetic of the code *)

Section Code_arithmetic.
Import Exact PrimFloat.

(** A signed distance that is zero is at least zero. *)
Lemma eqb_zero_leb (a : float) : (a =? 0)%float = true → (0 <=? a)%float = true.
Proof.
  rewrite FloatAxioms.eqb_spec, FloatAxioms.leb_spec.
  replace (FloatOps.Prim2SF 0) with (SpecFloat.S754_zero false) by reflexivity.
  destruct (FloatOps.Prim2SF a) as [s|s| |s m e];
    unfold SpecFloat.SFleb, SpecFloat.SFeqb; cbn; try done; destruct s; done.
Qed.

(** C2 (as amended): for a point and a sequence with at least six planes,
    [IsPointInFrustum] answers true exactly when, for every index [i] from 0
    to 5, the signed distance [dot(planes[i].normal, p) + planes[i].d] is not
    below zero: in binary64, the arithmetic of the code, when it is at least
    zero or [NaN]; in exact arithmetic, when it is non-negative.  In both, a
    point on a plane (signed distance zero) that the other five do not reject
    is inside; a signed distance below zero to one of the first six planes
    gives false whatever the others are; and the entries beyond index 5 do
    not count: any sequence with the same first six entries gives the same
    answer. *)
Theorem IsPointInFrustum_true_iff_none_below_zero :
  (∀ point frustumPlanes (h : heap float) v ps,
     h !! point = Some (OVector3 v) →
     hold_planes h frustumPlanes ps →
     6 ≤ length frustumPlanes →
     ∃ b,
       IsPointInFrustum point frustumPlanes h = (Ok b, h) ∧
       (b = true ↔
        ∀ i p, i < 6 → ps !! i = Some p →
               is_nan (signed_distance p v) = true ∨
               (0 <=? signed_distance p v)%float = true) ∧
       (∀ i p,
          i < 6 → ps !! i = Some p → (signed_distance p v =? 0)%float = true →
          (∀ j q, j < 6 → j ≠ i → ps !! j = Some q →
                  is_nan (signed_distance q v) = true ∨
                  (0 <=? signed_distance q v)%float = true) →
          b = true) ∧
       (∀ i p,
          i < 6 → ps !! i = Some p → (signed_distance p v <? 0)%float = true →
          b = false) ∧
       (∀ others,
          take 6 others = take 6 frustumPlanes →
          IsPointInFrustum point others h = (Ok b, h)))
  ∧ (∀ point frustumPlanes (h : heap R) v ps,
       h !! point = Some (OVector3 v) →
       hold_planes h frustumPlanes ps →
       6 ≤ length frustumPlanes →
       ∃ b,
         IsPointInFrustum point frustumPlanes h = (Ok b, h) ∧
         (b = true ↔
          ∀ i p, i < 6 → ps !! i = Some p → (0 <= signed_distance p v)%R) ∧
         (∀ i p,
            i < 6 → ps !! i = Some p → signed_distance p v = 0%R →
            (∀ j q, j < 6 → j ≠ i → ps !! j = Some q →
                    (0 <= signed_distance q v)%R) →
            b = true) ∧
         (∀ i p,
            i < 6 → ps !! i = Some p → (signed_distance p v < 0)%R → b = false) ∧
         (∀ others,
            take 6 others = take 6 frustumPlanes →
            IsPointInFrustum point others h = (Ok b, h))).
Proof.
  split; [|apply IsPointInFrustum_exact].
  intros point frustumPlanes h v ps Ev Hps Hlen.
  pose proof (IsPointInFrustum_run point frustumPlanes h v ps Ev Hps Hlen) as Erun.
  assert (Hiff : forallb (not_negative v) (take 6 ps) = true
                 ↔ ∀ i p, i < 6 → ps !! i = Some p →
                          is_nan (signed_distance p v) = true ∨
                          (0 <=? signed_distance p v)%float = true).
  { rewrite forallb_take_lookup. unfold not_negative.
    split; intros Hall i p Hi Hp; specialize (Hall i p Hi Hp).
    - apply ltb_zero_false_iff. now apply negb_true_iff in Hall.
    - apply negb_true_iff. now apply ltb_zero_false_iff. }
  eexists. split; [exact Erun|]. split; [exact Hiff|]. split; [|split].
  - intros i p Hi Hp Hzero Hothers. apply Hiff. intros j q Hj Hq.
    destruct (decide (j = i)) as [->|Hne].
    + rewrite Hp in Hq. injection Hq as <-. right. now apply eqb_zero_leb.
    + now apply (Hothers j).
  - intros i p Hi Hp Hneg. apply not_true_is_false. intros Htrue.
    pose proof (proj1 Hiff Htrue i p Hi Hp) as Hnot.
    apply ltb_zero_false_iff in Hnot. congruence.
  - intros others Htake. rewrite <- Erun. unfold IsPointInFrustum.
    rewrite <- (IsPointInFrustum_loop_take 6 0 point others) by lia.
    rewrite <- (IsPointInFrustum_loop_take 6 0 point frustumPlanes) by lia.
    now rewrite Htake.
Qed.

Lemma IsPointInFrustum_true_iff_none_below_zero_witness :
  box_store !! 7 = Some (OVector3 {| x := 0; y := 0; z := 0 |}%float) ∧
  box_store !! 8 = Some (OVector3 {| x := 0; y := 0; z := 2 |}%float) ∧
  hold_planes box_store six_slots box_planes ∧
  6 ≤ length six_slots ∧
  IsPointInFrustum 7 six_slots box_store = (Ok false, box_store) ∧
  IsPointInFrustum 8 six_slots box_store = (Ok true, box_store).
Proof.
  assert (E7 : box_store !! 7 = Some (OVector3 {| x := 0; y := 0; z := 0 |}%float))
    by reflexivity.
  assert (E8 : box_store !! 8 = Some (OVector3 {| x := 0; y := 0; z := 2 |}%float))
    by reflexivity.
  assert (Hps : hold_planes box_store six_slots box_planes) by (repeat constructor).
  assert (Hlen : 6 ≤ length six_slots) by (cbn; lia).
  split; [exact E7|]. split; [exact E8|]. split; [exact Hps|]. split; [exact Hlen|].
  split.
  - destruct (proj1 IsPointInFrustum_true_iff_none_below_zero
                7 six_slots box_store _ box_planes E7 Hps Hlen)
      as (b & Erun & _ & _ & Hneg & _).
    rewrite Erun. do 2 f_equal.
    apply (Hneg 0 (mkPlane 0 0 1 (-1))%float); [lia | reflexivity | reflexivity].
  - destruct (proj1 IsPointInFrustum_true_iff_none_below_zero
                8 six_slots box_store _ box_planes E8 Hps Hlen)
      as (b & Erun & Hiff & _).
    rewrite Erun. do 2 f_equal. apply Hiff. intros i p Hi Hp.
    destruct i as [|[|[|[|[|[|]]]]]]; try lia; cbn in Hp; injection Hp as <-;
      right; reflexivity.
Defined.

(** In binary64 a signed distance that is [NaN] is not rejected: with [NaN]
    as the offset of the first plane the answer is true, though that signed
    distance is not at least zero. *)
Lemma IsPointInFrustum_NaN_passes :
  nan_store !! 7 = Some (OVector3 {| x := 0; y := 0; z := 0 |}%float) ∧
  hold_planes nan_store six_slots nan_planes ∧
  6 ≤ length six_slots ∧
  IsPointInFrustum 7 six_slots nan_store = (Ok true, nan_store) ∧
  nan_planes !! 0 = Some (mkPlane 0 0 1 nan)%float ∧
  (0 <=? signed_distance (mkPlane 0 0 1 nan) {| x := 0; y := 0; z := 0 |})%float
  = false.
Proof.
  split; [reflexivity|]. split; [repeat constructor|]. split; [cbn; lia|].
  split; [reflexivity|]. split; reflexivity.
Qed.


End Code_arithmetic.
